(** * Agent-E browser skills: click and text entry by selector

    A shallow embedding of
      - [ae/core/skills/click_using_selector.py]
      - [ae/core/skills/enter_text_using_selector.py]
    and of the JavaScript snippets these modules send to the page.

    The Python coroutines talk to a live browser through Playwright.  They
    are embedded as programs over an explicit signature of calls; a browser
    is any machine that answers those calls, and running a program against
    a browser yields the list of calls made (with their answers) together
    with the value returned or the exception raised.

    Calls to [logger] and [traceback.print_exc] only write to the transient
    log and hand nothing back to the program; they are left out.  The
    float [wait_before_execution] is a rational, and cancellation of a
    coroutine is not modelled.

    Contents:
      - values, calls, programs, browsers and runs;
      - [Click] and [EnterText], the two Python modules;
      - [InPage], the scripts over a small DOM;
      - [Fixture], test pages to run the skills on;
      - the logs each pipeline can leave, and the properties C1 to C10. *)

From Stdlib Require Import ZArith QArith Ascii String List Eqdep_dec.
From stdpp Require Import base strings list gmap.
Import ListNotations.

Local Open Scope string_scope.
Local Open Scope list_scope.

(** ** Strings *)

(** The double quote character (ASCII 34), escaped inside the Python
    f-strings of the source. *)
Definition dq : string := String (ascii_of_nat 34) EmptyString.

Notation "s1 ^^ s2" := (String.append s1 s2)
  (at level 60, right associativity) : string_scope.

(** ** Python values used by the skills *)

(** Exceptions: the class name and the message ([str(e)]).  Every class
    that occurs derives from [Exception], so [except Exception] catches
    each of them. *)
Record exception : Type := Raised { exn_class : string; exn_msg : string }.

(** [repr] of a [str]: the text between quotes, with the quote in use,
    the backslash and the control characters escaped.  Double quotes are
    used only when the text holds a single quote and no double quote.
    Bytes above 127 stand for the UTF-8 encoding of printable characters
    and are kept. *)
Definition hex_digit (n : nat) : ascii :=
  match String.get n "0123456789abcdef" with
  | Some c => c
  | None => "0"%char
  end.

Definition repr_char (quote c : ascii) : string :=
  let n := nat_of_ascii c in
  if Ascii.eqb c quote || Ascii.eqb c "\"%char then String "\" (String c "")
  else if Nat.eqb n 9 then "\t"
  else if Nat.eqb n 10 then "\n"
  else if Nat.eqb n 13 then "\r"
  else if Nat.ltb n 32 || Nat.eqb n 127
       then String "\" (String "x" (String (hex_digit (n / 16))
                                      (String (hex_digit (n mod 16)) "")))
       else String c "".

Fixpoint contains (c : ascii) (s : string) : bool :=
  match s with
  | EmptyString => false
  | String c' rest => Ascii.eqb c c' || contains c rest
  end.

Fixpoint repr_chars (quote : ascii) (s : string) : string :=
  match s with
  | EmptyString => EmptyString
  | String c rest => repr_char quote c ^^ repr_chars quote rest
  end.

Definition repr (s : string) : string :=
  let quote :=
    if contains "'"%char s && negb (contains (ascii_of_nat 34) s)
    then ascii_of_nat 34 else "'"%char in
  String quote (repr_chars quote s ^^ String quote "").

Definition ValueError (msg : string) : exception := Raised "ValueError" msg.
(** [str] of a [KeyError] is the [repr] of its argument. *)
Definition KeyError (key : string) : exception := Raised "KeyError" (repr key).
Definition TimeoutError (msg : string) : exception := Raised "TimeoutError" msg.
Definition PlaywrightError (msg : string) : exception := Raised "Error" msg.

(** The outcome of an awaited call: a value, or a raised exception. *)
Inductive result (A : Type) : Type :=
| Ok (a : A)
| Raise (e : exception).
Arguments Ok {A} a.
Arguments Raise {A} e.

(** How an f-string renders an [Optional[str]]. *)
Definition format_optional (v : option string) : string :=
  match v with
  | Some s => s
  | None => "None"
  end.

(** Browser-side objects are known to Python through handles. *)
Definition Page : Type := nat.
Definition ElementHandle : Type := nat.

(** Values crossing the [evaluate] boundary (JSON-serialisable). *)
Inductive jsval : Type :=
| JUndefined
| JNull
| JString (s : string)
| JObject (fields : gmap string string).

Definition jsval_is_string (v : jsval) (s : string) : bool :=
  match v with
  | JString s' => String.eqb s' s
  | _ => false
  end.

(** ** The in-page scripts

    Four JavaScript snippets are sent to the page.  Each is named here and
    given its meaning over a small DOM model in [Module InPage] below. *)
Inductive script : Type :=
| js_tag_name       (* element => element.tagName.toLowerCase() *)
| js_parent_node    (* element => element.parentNode *)
| js_click_code     (* the [js_code] of perform_javascript_click *)
| js_fill_code.     (* the script of custom_fill_element *)

(** ** Calls a skill can await *)

(** Playwright and asyncio calls; any of them may raise. *)
Inductive op : Type :=
| AsyncioWaitFor (awaited : op) (timeout : Z)
| PageWaitForSelector (page : Page) (selector : string) (state : string) (timeout : Z)
| PageQuerySelector (page : Page) (selector : string)
| PageEvaluate (page : Page) (code : script) (arg : jsval)
| KeyboardType (page : Page) (text : string) (delay : option Z)
| ScrollIntoViewIfNeeded (element : ElementHandle) (timeout : Z)
| WaitForElementState (element : ElementHandle) (state : string) (timeout : Z)
| ElementEvaluate (element : ElementHandle) (code : script)
| ElementEvaluateHandle (element : ElementHandle) (code : script)
| GetAttribute (element : ElementHandle) (name : string)
| SelectOption (element : ElementHandle) (value : option string)
| Focus (element : ElementHandle)
| ElementClick (element : ElementHandle) (force : bool) (timeout : Z).

(** What each call hands back when it does not raise. *)
Fixpoint resp (o : op) : Type :=
  match o with
  | AsyncioWaitFor awaited _ => resp awaited
  | PageWaitForSelector _ _ _ _ => option ElementHandle
  | PageQuerySelector _ _ => option ElementHandle
  | PageEvaluate _ _ _ => jsval
  | KeyboardType _ _ _ => unit
  | ScrollIntoViewIfNeeded _ _ => unit
  | WaitForElementState _ _ _ => unit
  | ElementEvaluate _ _ => jsval
  | ElementEvaluateHandle _ _ => ElementHandle
  | GetAttribute _ _ => option string
  | SelectOption _ _ => list string
  | Focus _ => unit
  | ElementClick _ _ _ => unit
  end.

(** Modelled from the spec: [PlaywrightManager] (ae/core/playwright_manager.py)
    lives outside the two skill modules.  Section 6 of the specification
    gives its interface: the current page or none if no session is open,
    and fire-and-forget [highlight_element] / [notify_user] whose answer
    the skills never consume.  [asyncio.sleep] completes after its delay.
    None of these raises. *)
Inductive collab : Type :=
| GetCurrentPage
| HighlightElement (selector : string) (add_highlight : bool)
| NotifyUser (message : string)
| AsyncioSleep (delay : Q).

Definition collab_resp (c : collab) : Type :=
  match c with
  | GetCurrentPage => option Page
  | HighlightElement _ _ => unit
  | NotifyUser _ => unit
  | AsyncioSleep _ => unit
  end.

(** ** Programs *)

(** A coroutine is a tree: it returns, raises, or awaits a call and goes
    on with the answer. *)
Inductive prog (A : Type) : Type :=
| Return (a : A)
| Throw (e : exception)
| Await (o : op) (k : result (resp o) -> prog A)
| AwaitCollab (c : collab) (k : collab_resp c -> prog A).
Arguments Return {A} a.
Arguments Throw {A} e.
Arguments Await {A} o k.
Arguments AwaitCollab {A} c k.

Fixpoint bind {A B} (p : prog A) (f : A -> prog B) : prog B :=
  match p with
  | Return a => f a
  | Throw e => Throw e
  | Await o k => Await o (fun r => bind (k r) f)
  | AwaitCollab c k => AwaitCollab c (fun x => bind (k x) f)
  end.

(** [try: p except Exception as e: handler e] *)
Fixpoint try_except {A} (p : prog A) (handler : exception -> prog A) : prog A :=
  match p with
  | Return a => Return a
  | Throw e => handler e
  | Await o k => Await o (fun r => try_except (k r) handler)
  | AwaitCollab c k => AwaitCollab c (fun x => try_except (k x) handler)
  end.

(** [await call]: an exception raised by the call propagates. *)
Definition await (o : op) : prog (resp o) :=
  Await o (fun r => match r with Ok x => Return x | Raise e => Throw e end).

Definition await_collab (c : collab) : prog (collab_resp c) :=
  AwaitCollab c Return.

(** The monad structure, for stdpp's [x ← p; q] and [p;; q]. *)
#[global] Instance prog_ret : MRet prog := @Return.
#[global] Instance prog_bind : MBind prog := fun A B f p => bind p f.

(** ** Browsers and runs *)

(** A browser answers every call from its current state. *)
Record Browser : Type := {
  World : Type;
  respond : forall o : op, World -> result (resp o) * World;
  respond_collab : forall c : collab, World -> collab_resp c * World
}.

(** One entry of the interaction log: the call and its answer. *)
Inductive event : Type :=
| Called (o : op) (r : result (resp o))
| Collab (c : collab) (x : collab_resp c).

Fixpoint run {A} (B : Browser) (p : prog A) (w : World B)
  : list event * result A * World B :=
  match p with
  | Return a => ([], Ok a, w)
  | Throw e => ([], Raise e, w)
  | Await o k =>
      let (r, w1) := respond B o w in
      let '(tr, res, w2) := run B (k r) w1 in
      (Called o r :: tr, res, w2)
  | AwaitCollab c k =>
      let (x, w1) := respond_collab B c w in
      let '(tr, res, w2) := run B (k x) w1 in
      (Collab c x :: tr, res, w2)
  end.

Definition trace_of {A} (B : Browser) (p : prog A) (w : World B) : list event :=
  (run B p w).1.1.
Definition outcome_of {A} (B : Browser) (p : prog A) (w : World B) : result A :=
  (run B p w).1.2.
Definition world_after {A} (B : Browser) (p : prog A) (w : World B) : World B :=
  (run B p w).2.

(** ** click_using_selector.py *)

Module Click.

Definition perform_playwright_click
    (element : ElementHandle) (selector : string) : prog unit :=
  await (ElementClick element false 200).

Definition is_element_present (page : Page) (selector : string) : prog bool :=
  element ← await (PageQuerySelector page selector);
  mret (bool_decide (element ≠ None)).

(** The [except] branch logs and falls off the end of the function, so
    the coroutine then yields [None]. *)
Definition perform_javascript_click
    (page : Page) (selector : string) : prog (option jsval) :=
  try_except
    (result ← await (PageEvaluate page js_click_code (JString selector));
     mret (Some result))
    (fun e => mret None).

Definition do_click
    (page : Page) (selector : string) (wait_before_execution : Q) : prog string :=
  (if Qle_bool wait_before_execution 0 then mret tt
   else await_collab (AsyncioSleep wait_before_execution));;
  try_except
    (element ← await (AsyncioWaitFor
                        (PageWaitForSelector page selector "attached" 2000) 2000);
     match element with
     | None =>
         Throw (ValueError
                  ("Element with selector: " ^^ dq ^^ selector ^^ dq ^^ " not found"))
     | Some element =>
         try_except (await (ScrollIntoViewIfNeeded element 200))
                    (fun _ => mret tt);;
         try_except (await (WaitForElementState element "visible" 200))
                    (fun _ => mret tt);;
         element_tag_name ← await (ElementEvaluate element js_tag_name);
         if jsval_is_string element_tag_name "option" then
           element_value ← await (GetAttribute element "value");
           parent_element ← await (ElementEvaluateHandle element js_parent_node);
           await (SelectOption parent_element element_value);;
           mret ("Select menu option " ^^ dq ^^ format_optional element_value
                   ^^ dq ^^ " selected")
         else
           await (Focus element);;
           perform_javascript_click page selector;;
           mret ("Element with selector: " ^^ dq ^^ selector ^^ dq ^^ " clicked.")
     end)
    (fun e =>
       mret ("Unable to click element with selector: " ^^ dq ^^ selector ^^ dq
               ^^ " since the selector is invalid. Proceed by retrieving DOM again.")).

Definition click (selector : string) (wait_before_execution : Q) : prog string :=
  page ← await_collab GetCurrentPage;
  match page with
  | None =>
      Throw (ValueError "No active page found. OpenURL command opens a new page.")
  | Some page =>
      await_collab (HighlightElement selector true);;
      result ← do_click page selector wait_before_execution;
      await_collab (NotifyUser result);;
      mret result
  end.

End Click.

(** ** enter_text_using_selector.py *)

Module EnterText.

Record EnterTextEntry : Type := {
  query_selector : string;
  text : string
}.

Definition __getitem__ (self : EnterTextEntry) (key : string) : prog string :=
  if String.eqb key "query_selector" then mret (query_selector self)
  else if String.eqb key "text" then mret (text self)
  else Throw (KeyError (key ^^ " is not a valid key")).

(** [d[key]] on a Python dict. *)
Definition dict_getitem (d : gmap string string) (key : string) : prog string :=
  match d !! key with
  | Some v => mret v
  | None => Throw (KeyError key)
  end.

Definition custom_fill_element
    (page : Page) (selector : string) (text_to_enter : string) : prog unit :=
  await (PageEvaluate page js_fill_code
           (JObject {[ "selector" := selector; "text_to_enter" := text_to_enter ]}));;
  mret tt.

(** The default of the [use_keyboard_fill] parameter of [do_entertext]. *)
Definition use_keyboard_fill_default : bool := false.

Definition do_entertext
    (page : Page) (selector : string) (text_to_enter : string)
    (use_keyboard_fill : bool) : prog string :=
  try_except
    (elem ← await (PageQuerySelector page selector);
     match elem with
     | None =>
         mret ("Error: Selector " ^^ selector ^^ " not found. Unable to continue.")
     | Some elem =>
         (if use_keyboard_fill then
            await (Focus elem);;
            await (KeyboardType page text_to_enter (Some 2%Z))
          else
            custom_fill_element page selector text_to_enter);;
         await (Focus elem);;
         await (KeyboardType page " " None);;
         await_collab (AsyncioSleep 1);;
         mret ("Success. Text " ^^ dq ^^ text_to_enter ^^ dq
                 ^^ " set successfully in the element with selector " ^^ selector)
     end)
    (fun e =>
       mret ("Error entering text in selector " ^^ selector ^^ ". Error: "
               ^^ exn_msg e)).

Definition entertext (entry : EnterTextEntry) : prog string :=
  selector ← __getitem__ entry "query_selector";
  text_to_enter ← __getitem__ entry "text";
  page ← await_collab GetCurrentPage;
  match page with
  | None => mret "Error: No active page found. OpenURL command opens a new page."
  | Some page =>
      await_collab (HighlightElement selector true);;
      result ← do_entertext page selector text_to_enter use_keyboard_fill_default;
      await_collab (NotifyUser result);;
      mret result
  end.

(** [for x in xs: acc = body x acc] *)
Fixpoint for_each {A S} (xs : list A) (body : A -> S -> prog S) (acc : S) : prog S :=
  match xs with
  | [] => mret acc
  | x :: rest => acc' ← body x acc; for_each rest body acc'
  end.

(** The body of the loop of [bulk_enter_text]: one entry is read and
    attempted, and its result is appended to [results]. *)
Definition bulk_enter_text_step
    (entry : gmap string string) (results : list (gmap string string))
  : prog (list (gmap string string)) :=
  selector ← dict_getitem entry "query_selector";
  text_to_enter ← dict_getitem entry "text";
  result ← entertext {| query_selector := selector; text := text_to_enter |};
  mret (results ++ [ ({[ "query_selector" := selector; "result" := result ]}
                      : gmap string string) ]).

Definition bulk_enter_text
    (entries : list (gmap string string)) : prog (list (gmap string string)) :=
  for_each entries bulk_enter_text_step [].

End EnterText.

(** ** The scripts, run inside the page *)

Module InPage.

(** The part of a DOM element the scripts read or write.  Nodes are
    referred to by number, as JavaScript refers to them by reference. *)
Record Element : Type := {
  tagName : string;
  value : string;
  text : string;
  target : string;
  parentElement : option nat
}.

Record Document : Type := {
  node : nat -> Element;
  (** How selectors resolve against the nodes as they currently are: the
      first match or null; a selector that does not parse throws. *)
  resolve : (nat -> Element) -> string -> result (option nat)
}.

(** [document.querySelector] *)
Definition querySelector (doc : Document) (selector : string)
  : result (option nat) :=
  resolve doc (node doc) selector.

(** What a script does to the page, in order.  [NativeClick n] records
    that the script called [click()] on node [n]; the nodes of the model
    are HTML elements, on which that method exists, and what the click
    handlers of the page go on to do is outside the model. *)
Inductive effect : Type :=
| ConsoleLog (args : list string)
| SetProperty (n : nat) (property : string) (v : string)
| DispatchEvent (n : nat) (type : string) (bubbles : bool)
| NativeClick (n : nat).

Definition set_value (v : string) (e : Element) : Element :=
  {| tagName := tagName e; value := v; text := text e;
     target := target e; parentElement := parentElement e |}.

Definition set_target (v : string) (e : Element) : Element :=
  {| tagName := tagName e; value := value e; text := text e;
     target := v; parentElement := parentElement e |}.

Definition update (n : nat) (f : Element -> Element) (doc : Document) : Document :=
  {| node := fun m => if Nat.eqb m n then f (node doc m) else node doc m;
     resolve := resolve doc |}.

Definition lower_ascii (c : ascii) : ascii :=
  let n := nat_of_ascii c in
  if (65 <=? n)%nat && (n <=? 90)%nat then ascii_of_nat (n + 32) else c.

Fixpoint toLowerCase (s : string) : string :=
  match s with
  | EmptyString => EmptyString
  | String c rest => String (lower_ascii c) (toLowerCase rest)
  end.

(** A finished script: its effects, the value it returned or the error
    it threw, and the page it leaves behind. *)
Definition completion : Type := list effect * result jsval * Document.

Definition TypeError (msg : string) : exception := Raised "TypeError" msg.

(** [js_tag_name] and [js_parent_node], applied to a node. *)
Definition tag_name (n : nat) (doc : Document) : jsval :=
  JString (toLowerCase (tagName (node doc n))).

Definition parent_node (n : nat) (doc : Document) : option nat :=
  parentElement (node doc n).

(** [js_click_code], applied to [selector]. *)
Definition click_code (selector : string) (doc : Document) : completion :=
  match querySelector doc selector with
  | Raise e => ([], Raise e, doc)
  | Ok None =>
      let msg := "perform_javascript_click: Element with selector " ^^ selector
                   ^^ " not found" in
      ([ConsoleLog [msg]], Ok (JString msg), doc)
  | Ok (Some element) =>
      if String.eqb (toLowerCase (tagName (node doc element))) "option" then
        let value_ := text (node doc element) in
        match parentElement (node doc element) with
        | None =>
            ([], Raise (TypeError "Cannot set properties of null (setting 'value')"),
             doc)
        | Some parent =>
            let v := value (node doc element) in
            ([SetProperty parent "value" v;
              DispatchEvent parent "change" true;
              ConsoleLog ["Select menu option"; value_; "selected"]],
             Ok (JString ("Select menu option: " ^^ value_ ^^ " selected")),
             update parent (set_value v) doc)
        end
      else
        let about := ConsoleLog ["About to click selector"; selector] in
        let answer :=
          Ok (JString ("Executed JavaScript Click on element with selector: "
                         ^^ selector)) in
        if String.eqb (toLowerCase (tagName (node doc element))) "a" then
          ([about; SetProperty element "target" "_self"; NativeClick element],
           answer,
           update element (set_target "_self") doc)
        else
          ([about; NativeClick element], answer, doc)
  end.

(** Reading a property of the object handed to the script; a missing
    property is [undefined], which the DOM turns into that word. *)
Definition property (inputParams : gmap string string) (name : string) : string :=
  default "undefined" (inputParams !! name).

(** [js_fill_code], applied to [inputParams]. *)
Definition fill_code (inputParams : gmap string string) (doc : Document) : completion :=
  let selector := property inputParams "selector" in
  let text_to_enter := property inputParams "text_to_enter" in
  match querySelector doc selector with
  | Raise e => ([], Raise e, doc)
  | Ok None =>
      ([], Raise (TypeError "Cannot set properties of null (setting 'value')"), doc)
  | Ok (Some element) =>
      ([SetProperty element "value" text_to_enter], Ok JUndefined,
       update element (set_value text_to_enter) doc)
  end.

End InPage.


(** ** get_dom_with_content_type.py

    This skill calls helpers of other modules: the DOM-settling wait and
    the accessibility snapshot of [ae.utils], and it writes a file below
    [SOURCE_LOG_FOLDER_PATH] of [ae.config].  The helpers are calls that a
    host answers, each of which may raise; the folder is a parameter.
    The coroutine is written in state-passing style over such a host and
    records what it did. *)

Module GetDom.

(** [posixpath.join] for two components. *)
Definition ends_with_sep (s : string) : bool :=
  match String.get (String.length s - 1) s with
  | Some c => Ascii.eqb c "/"
  | None => false
  end.

Definition os_path_join (a b : string) : string :=
  if String.prefix "/" b then b
  else if String.eqb a "" || ends_with_sep a then a ^^ b
  else a ^^ "/" ^^ b.

Section WithTree.

(** The snapshot of the page, a [dict[str, Any]] to Python. *)
Context {Tree : Type}.

(** What the skill returns: [dict[str, Any] | str | None]. *)
Inductive extracted : Type :=
| PyNone
| Dict (tree : Tree)
| Str (text : string).

Definition of_snapshot (snapshot : option Tree) : extracted :=
  match snapshot with
  | Some tree => Dict tree
  | None => PyNone
  end.

Record Host : Type := {
  State : Type;
  get_current_page : State -> option Page * State;
  wait_for_non_loading_dom_state : Page -> Z -> State -> result unit * State;
  do_get_accessibility_info : Page -> bool -> State -> result (option Tree) * State;
  (** [page.evaluate] of the script that reads the inner text *)
  evaluate_inner_text : Page -> State -> result string * State;
  (** [open(path, 'w', encoding='utf-8')] followed by [f.write(text)] *)
  write_text : string -> string -> State -> result unit * State;
  notify_user : string -> State -> unit * State
}.

(** What the skill did, in order, with the answers it got. *)
Inductive action : Type :=
| LookedUp (page : option Page)
| Waited (page : Page) (max_wait : Z) (r : result unit)
| Snapshot (page : Page) (only_input_fields : bool) (r : result (option Tree))
| ReadText (page : Page) (r : result string)
| Wrote (path text : string) (r : result unit)
| Notified (message : string).

Context (H : Host).

(** A coroutine: from a state to its log, its outcome and the new state. *)
Definition M (A : Type) : Type := State H -> list action * result A * State H.

Definition ret {A} (a : A) : M A := fun s => ([], Ok a, s).

Definition raise {A} (e : exception) : M A := fun s => ([], Raise e, s).

Definition bind {A B} (m : M A) (f : A -> M B) : M B :=
  fun s =>
    match m s with
    | (log, Ok a, s1) => let '(log2, res, s2) := f a s1 in (log ++ log2, res, s2)
    | (log, Raise e, s1) => (log, Raise e, s1)
    end.

(** An awaited call that may raise, logged by [entry]. *)
Definition call {A} (answer : State H -> result A * State H)
    (entry : result A -> action) : M A :=
  fun s => let (r, s1) := answer s in ([entry r], r, s1).

(** An awaited call that does not raise. *)
Definition tell {A} (answer : State H -> A * State H) (entry : A -> action) : M A :=
  fun s => let (a, s1) := answer s in ([entry a], Ok a, s1).

Context (SOURCE_LOG_FOLDER_PATH : string).

Definition get_dom_with_content_type (content_type : string) : M extracted :=
  bind (tell (get_current_page H) LookedUp) (fun page =>
  match page with
  | None =>
      raise (ValueError "No active page found. OpenURL command opens a new page.")
  | Some page =>
      bind (call (wait_for_non_loading_dom_state H page 2000) (Waited page 2000))
        (fun _ =>
      bind
        (if String.eqb content_type "all_fields" then
           bind (call (do_get_accessibility_info H page false) (Snapshot page false))
             (fun extracted_data =>
           ret (of_snapshot extracted_data, "Fetched all the fields in the DOM"))
         else if String.eqb content_type "input_fields" then
           bind (call (do_get_accessibility_info H page true) (Snapshot page true))
             (fun extracted_data =>
           ret (of_snapshot extracted_data, "Fetched only input fields in the DOM"))
         else if String.eqb content_type "text_only" then
           bind (call (evaluate_inner_text H page) (ReadText page))
             (fun text_content =>
           let path := os_path_join SOURCE_LOG_FOLDER_PATH "text_only_dom.txt" in
           bind (call (write_text H path text_content) (Wrote path text_content))
             (fun _ =>
           ret (Str text_content, "Fetched the text content of the DOM")))
         else
           raise (ValueError ("Unsupported content_type: " ^^ content_type)))
        (fun '(extracted_data, user_success_message) =>
      bind (tell (notify_user H user_success_message)
              (fun _ => Notified user_success_message))
        (fun _ =>
      ret extracted_data)))
  end).

End WithTree.

Arguments extracted : clear implicits.
Arguments Host : clear implicits.
Arguments action : clear implicits.

End GetDom.

(** ** Fixture pages

    A fixture is a test page whose answers are computed from a document
    chosen in advance.  It is used to run the skills on concrete inputs. *)

Module Fixture.

Record t : Type := {
  (** the open page, if any *)
  current_page : option Page;
  (** the document that host-side lookups see *)
  shown : InPage.Document;
  (** what scrolling into view and waiting for visibility give *)
  soft_wait : result unit;
  (** the document a script finds when it runs, unless evaluation fails *)
  in_page : result InPage.Document
}.

Definition evaluate_on (doc : InPage.Document) (code : script) (arg : jsval)
  : result jsval :=
  match code, arg with
  | js_click_code, JString selector => (InPage.click_code selector doc).1.2
  | js_fill_code, JObject inputParams => (InPage.fill_code inputParams doc).1.2
  | _, _ => Ok JUndefined
  end.

Fixpoint answer (f : t) (o : op) : result (resp o) :=
  match o return result (resp o) with
  | AsyncioWaitFor awaited _ => answer f awaited
  | PageWaitForSelector _ selector _ timeout =>
      match InPage.querySelector (shown f) selector with
      | Ok None => Raise (TimeoutError "Timeout exceeded.")
      | r => r
      end
  | PageQuerySelector _ selector => InPage.querySelector (shown f) selector
  | PageEvaluate _ code arg =>
      match in_page f with
      | Ok doc => evaluate_on doc code arg
      | Raise e => Raise e
      end
  | KeyboardType _ _ _ => Ok tt
  | ScrollIntoViewIfNeeded _ _ => soft_wait f
  | WaitForElementState _ _ _ => soft_wait f
  | ElementEvaluate element _ => Ok (InPage.tag_name element (shown f))
  | ElementEvaluateHandle element _ =>
      match InPage.parent_node element (shown f) with
      | Some p => Ok p
      | None => Raise (PlaywrightError "no parent")
      end
  | GetAttribute element _ => Ok (Some (InPage.value (InPage.node (shown f) element)))
  | SelectOption element v =>
      if jsval_is_string (InPage.tag_name element (shown f)) "select"
      then Ok (match v with Some s => [s] | None => [] end)
      else Raise (PlaywrightError "Element is not a <select> element")
  | Focus _ => Ok tt
  | ElementClick _ _ _ => Ok tt
  end.

Definition answer_collab (f : t) (c : collab) : collab_resp c :=
  match c return collab_resp c with
  | GetCurrentPage => current_page f
  | HighlightElement _ _ => tt
  | NotifyUser _ => tt
  | AsyncioSleep _ => tt
  end.

Definition browser (f : t) : Browser :=
  {| World := unit;
     respond o w := (answer f o, w);
     respond_collab c w := (answer_collab f c, w) |}.

(** The same browser, on a page whose elements carry no attributes. *)
Definition without_attributes (f : t) : Browser :=
  {| World := unit;
     respond o w :=
       (match o as o' return result (resp o') with
        | GetAttribute _ _ => Ok None
        | o' => answer f o'
        end, w);
     respond_collab c w := (answer_collab f c, w) |}.

Definition element (tagName value text target : string) (parent : option nat)
  : InPage.Element :=
  {| InPage.tagName := tagName; InPage.value := value; InPage.text := text;
     InPage.target := target; InPage.parentElement := parent |}.

(** A form with a link [#go], an input [#name], a menu [#lang] with the
    option [#de], and a button [#ok]. *)
Definition form : InPage.Document :=
  {| InPage.node n :=
       match n with
       | 1 => element "A" "" "" "_blank" (Some 0)
       | 2 => element "INPUT" "old" "" "" (Some 0)
       | 3 => element "OPTION" "de" "Deutsch" "" (Some 4)
       | 4 => element "SELECT" "en" "" "" (Some 0)
       | 5 => element "BUTTON" "" "" "" (Some 0)
       | _ => element "BODY" "" "" "" None
       end;
     InPage.resolve _ s :=
       if String.eqb s "#go" then Ok (Some 1)
       else if String.eqb s "#name" then Ok (Some 2)
       else if String.eqb s "#de" then Ok (Some 3)
       else if String.eqb s "#lang" then Ok (Some 4)
       else if String.eqb s "#ok" then Ok (Some 5)
       else Ok None |}.

(** The same form after the button has been removed. *)
Definition form_without_button : InPage.Document :=
  {| InPage.node := InPage.node form;
     InPage.resolve nodes s :=
       if String.eqb s "#ok" then Ok None else InPage.resolve form nodes s |}.

(** A search box, numbered 1, that the selector [input:placeholder-shown]
    matches only while its value is empty. *)
Definition search_box : InPage.Document :=
  {| InPage.node n :=
       match n with
       | 1 => element "INPUT" "" "" "" (Some 0)
       | _ => element "BODY" "" "" "" None
       end;
     InPage.resolve nodes s :=
       if String.eqb s "input:placeholder-shown"
       then if String.eqb (InPage.value (nodes 1)) "" then Ok (Some 1) else Ok None
       else Ok None |}.

(** The form, open and well behaved. *)
Definition page : t :=
  {| current_page := Some 0; shown := form;
     soft_wait := Ok tt; in_page := Ok form |}.

(** No page is open. *)
Definition no_session : t :=
  {| current_page := None; shown := form;
     soft_wait := Ok tt; in_page := Ok form |}.

(** The form where nothing scrolls into view or becomes visible in time. *)
Definition hidden_page : t :=
  {| current_page := Some 0; shown := form;
     soft_wait := Raise (TimeoutError "Timeout 200ms exceeded.");
     in_page := Ok form |}.

(** The form where script evaluation fails. *)
Definition broken_page : t :=
  {| current_page := Some 0; shown := form;
     soft_wait := Ok tt;
     in_page := Raise (PlaywrightError "Execution context was destroyed") |}.

(** The form whose button is gone by the time the click script runs. *)
Definition stale_page : t :=
  {| current_page := Some 0; shown := form;
     soft_wait := Ok tt; in_page := Ok form_without_button |}.

End Fixture.

(** A host for sample runs of [get_dom_with_content_type]: the snapshot
    is a string, the state is the list of files written so far, and the
    log folder may be read-only. *)
Module GetDomFixture.

Definition host (page : option Page) (writable : bool) : GetDom.Host string :=
  {| GetDom.State := list (string * string);
     GetDom.get_current_page files := (page, files);
     GetDom.wait_for_non_loading_dom_state _ _ files := (Ok tt, files);
     GetDom.do_get_accessibility_info _ only_input_fields files :=
       (Ok (if only_input_fields then None else Some "tree"), files);
     GetDom.evaluate_inner_text _ files := (Ok "Hello", files);
     GetDom.write_text path text files :=
       if writable then (Ok tt, (path, text) :: files)
       else (Raise (Raised "PermissionError" path), files);
     GetDom.notify_user _ files := (tt, files) |}.

End GetDomFixture.

(** ** Vocabulary of the properties *)

(** A lookup that produced an element. *)
Definition found {A} (r : result (option A)) : bool :=
  match r with
  | Ok (Some _) => true
  | _ => false
  end.

(** The selector never attaches: in whatever state the browser is asked,
    neither the bounded wait for the attached state nor a direct query
    produces an element. *)
Definition never_attached (B : Browser) (selector : string) : Prop :=
  forall (page : Page) (w : World B),
    found (respond B (AsyncioWaitFor
                        (PageWaitForSelector page selector "attached" 2000) 2000) w).1
      = false
    /\ found (respond B (PageQuerySelector page selector) w).1 = false.

(** A page is open in state [w]. *)
Definition active_page (B : Browser) (w : World B) (page : Page) : Prop :=
  (respond_collab B GetCurrentPage w).1 = Some page.

(** The outcome strings of the two modules. *)
Definition click_failed (selector : string) : string :=
  "Unable to click element with selector: " ^^ dq ^^ selector ^^ dq
    ^^ " since the selector is invalid. Proceed by retrieving DOM again.".

Definition clicked (selector : string) : string :=
  "Element with selector: " ^^ dq ^^ selector ^^ dq ^^ " clicked.".

Definition option_selected (v : option string) : string :=
  "Select menu option " ^^ dq ^^ format_optional v ^^ dq ^^ " selected".

Definition selector_not_found (selector : string) : string :=
  "Error: Selector " ^^ selector ^^ " not found. Unable to continue.".

Definition entry_failed (selector : string) (e : exception) : string :=
  "Error entering text in selector " ^^ selector ^^ ". Error: " ^^ exn_msg e.

Definition text_set (selector text : string) : string :=
  "Success. Text " ^^ dq ^^ text ^^ dq
    ^^ " set successfully in the element with selector " ^^ selector.

Definition no_active_page : string :=
  "No active page found. OpenURL command opens a new page.".


(** Events that dispatch keystrokes. *)
Definition keystroke (ev : event) : bool :=
  match ev with
  | Called (KeyboardType _ _ _) _ => true
  | _ => false
  end.

(** An answer that is an exception. *)
Definition raised {A} (r : result A) : bool :=
  match r with
  | Ok _ => false
  | Raise _ => true
  end.

(** A log entry for a call that raised. *)
Definition call_raised (ev : event) : bool :=
  match ev with
  | Called _ r => raised r
  | Collab _ _ => false
  end.

(** ** The interaction logs of the click pipeline

    The logs [do_click] can leave behind, branch by branch, each with the
    string it returns. *)

Section ClickLogs.
Context (page : Page) (selector : string).

Definition attached_wait : op :=
  AsyncioWaitFor (PageWaitForSelector page selector "attached" 2000) 2000.

Definition click_script : op :=
  PageEvaluate page js_click_code (JString selector).

(** The pause before the pipeline, if one was asked for. *)
Definition pause (wait_before_execution : Q) : list event :=
  if Qle_bool wait_before_execution 0 then []
  else [Collab (AsyncioSleep wait_before_execution) tt].

Inductive option_log (element : ElementHandle) : list event -> string -> Prop :=
| value_unreadable e :
    option_log element
      [Called (GetAttribute element "value") (Raise e)]
      (click_failed selector)
| parent_unreachable v e :
    option_log element
      [Called (GetAttribute element "value") (Ok v);
       Called (ElementEvaluateHandle element js_parent_node) (Raise e)]
      (click_failed selector)
| select_refused v parent e :
    option_log element
      [Called (GetAttribute element "value") (Ok v);
       Called (ElementEvaluateHandle element js_parent_node) (Ok parent);
       Called (SelectOption parent v) (Raise e)]
      (click_failed selector)
| selected v parent chosen :
    option_log element
      [Called (GetAttribute element "value") (Ok v);
       Called (ElementEvaluateHandle element js_parent_node) (Ok parent);
       Called (SelectOption parent v) (Ok chosen)]
      (option_selected v).

Inductive generic_log (element : ElementHandle) : list event -> string -> Prop :=
| focus_refused e :
    generic_log element
      [Called (Focus element) (Raise e)]
      (click_failed selector)
| script_sent r :
    generic_log element
      [Called (Focus element) (Ok tt); Called click_script r]
      (clicked selector).

Inductive click_log : list event -> string -> Prop :=
| unattached r :
    found r = false ->
    click_log [Called attached_wait r] (click_failed selector)
| unclassified element r1 r2 e :
    click_log
      [Called attached_wait (Ok (Some element));
       Called (ScrollIntoViewIfNeeded element 200) r1;
       Called (WaitForElementState element "visible" 200) r2;
       Called (ElementEvaluate element js_tag_name) (Raise e)]
      (click_failed selector)
| as_option element r1 r2 rest s :
    option_log element rest s ->
    click_log
      (Called attached_wait (Ok (Some element))
       :: Called (ScrollIntoViewIfNeeded element 200) r1
       :: Called (WaitForElementState element "visible" 200) r2
       :: Called (ElementEvaluate element js_tag_name) (Ok (JString "option"))
       :: rest)
      s
| as_generic element r1 r2 tag rest s :
    jsval_is_string tag "option" = false ->
    generic_log element rest s ->
    click_log
      (Called attached_wait (Ok (Some element))
       :: Called (ScrollIntoViewIfNeeded element 200) r1
       :: Called (WaitForElementState element "visible" 200) r2
       :: Called (ElementEvaluate element js_tag_name) (Ok tag)
       :: rest)
      s.

End ClickLogs.

(** ** The interaction logs of the text-entry pipeline *)

Section EntryLogs.
Context (page : Page) (selector text_to_enter : string).

Definition fill_script : op :=
  PageEvaluate page js_fill_code
    (JObject {[ "selector" := selector; "text_to_enter" := text_to_enter ]}).

(** The fill mechanism: its log and the exception it ended with, if any. *)
Inductive fill_log (elem : ElementHandle)
  : bool -> list event -> option exception -> Prop :=
| assigned v :
    fill_log elem false [Called fill_script (Ok v)] None
| assignment_failed e :
    fill_log elem false [Called fill_script (Raise e)] (Some e)
| focus_failed e :
    fill_log elem true [Called (Focus elem) (Raise e)] (Some e)
| typing_failed e :
    fill_log elem true
      [Called (Focus elem) (Ok tt);
       Called (KeyboardType page text_to_enter (Some 2%Z)) (Raise e)]
      (Some e)
| typed :
    fill_log elem true
      [Called (Focus elem) (Ok tt);
       Called (KeyboardType page text_to_enter (Some 2%Z)) (Ok tt)]
      None.

(** What follows a fill that went through: focus again, one space, and
    the settle delay. *)
Inductive nudge_log (elem : ElementHandle) : list event -> string -> Prop :=
| refocus_failed e :
    nudge_log elem
      [Called (Focus elem) (Raise e)]
      (entry_failed selector e)
| space_failed e :
    nudge_log elem
      [Called (Focus elem) (Ok tt);
       Called (KeyboardType page " " None) (Raise e)]
      (entry_failed selector e)
| settled :
    nudge_log elem
      [Called (Focus elem) (Ok tt);
       Called (KeyboardType page " " None) (Ok tt);
       Collab (AsyncioSleep 1) tt]
      (text_set selector text_to_enter).

Inductive entry_log (use_keyboard_fill : bool) : list event -> string -> Prop :=
| query_failed e :
    entry_log use_keyboard_fill
      [Called (PageQuerySelector page selector) (Raise e)]
      (entry_failed selector e)
| query_empty :
    entry_log use_keyboard_fill
      [Called (PageQuerySelector page selector) (Ok None)]
      (selector_not_found selector)
| fill_failed elem filling e :
    fill_log elem use_keyboard_fill filling (Some e) ->
    entry_log use_keyboard_fill
      (Called (PageQuerySelector page selector) (Ok (Some elem)) :: filling)
      (entry_failed selector e)
| filled elem filling nudging s :
    fill_log elem use_keyboard_fill filling None ->
    nudge_log elem nudging s ->
    entry_log use_keyboard_fill
      (Called (PageQuerySelector page selector) (Ok (Some elem))
       :: filling ++ nudging)
      s.

End EntryLogs.

(** ** Batches *)

(** An entry of a batch carries both keys. *)
Definition well_formed_entry (entry : gmap string string) : Prop :=
  is_Some (entry !! "query_selector") /\ is_Some (entry !! "text").

(** The dictionary appended to the results for one entry. *)
Definition entry_result (selector result : string) : gmap string string :=
  {[ "query_selector" := selector; "result" := result ]}.

(** ** What follows the tag-name evaluation in the click pipeline *)

(** The option branch, given the calls [rest] made after the tag-name
    evaluation and the string [s] returned: the value attribute is read;
    if that goes through, the parent is looked up; if that goes through
    too, select-option is called on the parent with the value read, and
    [s] names that value when the call returns.  A call that raises is
    the last one and gives the failure string. *)
Definition option_run (selector : string) (element : ElementHandle)
    (rest : list event) (s : string) : Prop :=
  exists r1 : result (option string),
    match r1 with
    | Raise _ =>
        rest = [Called (GetAttribute element "value") r1]
        /\ s = click_failed selector
    | Ok v =>
        exists r2 : result ElementHandle,
          match r2 with
          | Raise _ =>
              rest = [Called (GetAttribute element "value") (Ok v);
                      Called (ElementEvaluateHandle element js_parent_node) r2]
              /\ s = click_failed selector
          | Ok parent =>
              exists r3 : result (list string),
                rest = [Called (GetAttribute element "value") (Ok v);
                        Called (ElementEvaluateHandle element js_parent_node)
                          (Ok parent);
                        Called (SelectOption parent v) r3]
                /\ s = if raised r3 then click_failed selector
                       else option_selected v
          end
    end.

(** The generic branch: the element is focused; if that goes through,
    the click script is sent for the selector and, whatever it answers,
    [s] is the success string.  A focus that raises is the last call and
    gives the failure string. *)
Definition generic_run (page : Page) (selector : string) (element : ElementHandle)
    (rest : list event) (s : string) : Prop :=
  exists rf : result unit,
    if raised rf
    then rest = [Called (Focus element) rf] /\ s = click_failed selector
    else exists r : result jsval,
        rest = [Called (Focus element) rf; Called (click_script page selector) r]
        /\ s = clicked selector.

(** ** Further vocabulary *)

(** The first key of an entry that a batch would miss. *)
Definition missing_key (entry : gmap string string) : option string :=
  match entry !! "query_selector", entry !! "text" with
  | None, _ => Some "query_selector"
  | Some _, None => Some "text"
  | Some _, Some _ => None
  end.

(** The selector a batch reads from an entry. *)
Definition selector_of (entry : gmap string string) : string :=
  default "" (entry !! "query_selector").

(** Log entries for the session lookup, for script evaluations, for
    native clicks and for sleeps. *)
Definition page_lookup (ev : event) : bool :=
  match ev with
  | Collab GetCurrentPage _ => true
  | _ => false
  end.

Definition evaluation (ev : event) : bool :=
  match ev with
  | Called (PageEvaluate _ _ _) _ => true
  | _ => false
  end.

Definition native_click (ev : event) : bool :=
  match ev with
  | Called (ElementClick _ _ _) _ => true
  | _ => false
  end.

Definition sleep (ev : event) : bool :=
  match ev with
  | Collab (AsyncioSleep _) _ => true
  | _ => false
  end.

Definition notification (ev : event) : bool :=
  match ev with
  | Collab (NotifyUser _) _ => true
  | _ => false
  end.

(** Log entries after which [do_click] gives up: an attached-wait that
    produced no element, or a raising call other than the two soft waits
    and the click script. *)
Definition fatal (ev : event) : bool :=
  match ev with
  | Called o r =>
      match o return result (resp o) -> bool with
      | AsyncioWaitFor awaited _ =>
          match awaited return result (resp awaited) -> bool with
          | PageWaitForSelector _ _ _ _ => fun r => negb (found r)
          | _ => fun r => raised r
          end
      | ScrollIntoViewIfNeeded _ _ => fun _ => false
      | WaitForElementState _ _ _ => fun _ => false
      | PageEvaluate _ _ _ => fun _ => false
      | _ => fun r => raised r
      end r
  | Collab _ _ => false
  end.

(** Effects of a script that click a node, and effects that write to the
    page. *)
Definition clicks (e : InPage.effect) : bool :=
  match e with
  | InPage.NativeClick _ => true
  | _ => false
  end.

Definition dispatches (e : InPage.effect) : bool :=
  match e with
  | InPage.DispatchEvent _ _ _ => true
  | _ => false
  end.

(** Log entries of [get_dom_with_content_type] that notify the user. *)
Definition told {Tree} (a : GetDom.action Tree) : bool :=
  match a with
  | GetDom.Notified _ => true
  | _ => false
  end.

(** The content types [get_dom_with_content_type] supports. *)
Definition supported (content_type : string) : bool :=
  String.eqb content_type "all_fields"
  || String.eqb content_type "input_fields"
  || String.eqb content_type "text_only".

Definition writes (e : InPage.effect) : bool :=
  match e with
  | InPage.SetProperty _ _ _ => true
  | _ => false
  end.
(** * Properties *)

(** ** Running composite programs *)

Section RunLemmas.
Context (B : Browser).

Lemma run_bind {X Y} (p : prog X) (f : X -> prog Y) (w : World B) :
  run B (bind p f) w =
    match run B p w with
    | (tr, Ok x, w1) =>
        let '(tr2, res, w2) := run B (f x) w1 in (tr ++ tr2, res, w2)
    | (tr, Raise e, w1) => (tr, Raise e, w1)
    end.
Proof.
  revert w. induction p as [x | e | o k IH | c k IH]; intros w; cbn.
  - destruct (run B (f x) w) as [[tr res] w2]; reflexivity.
  - reflexivity.
  - destruct (respond B o w) as [r w1]. rewrite IH.
    destruct (run B (k r) w1) as [[tr [x | e]] w2]; [|reflexivity].
    destruct (run B (f x) w2) as [[tr2 res] w3]; reflexivity.
  - destruct (respond_collab B c w) as [x w1]. rewrite IH.
    destruct (run B (k x) w1) as [[tr [y | e]] w2]; [|reflexivity].
    destruct (run B (f y) w2) as [[tr2 res] w3]; reflexivity.
Qed.

Lemma run_try_except {X} (p : prog X) (h : exception -> prog X) (w : World B) :
  run B (try_except p h) w =
    match run B p w with
    | (tr, Ok x, w1) => (tr, Ok x, w1)
    | (tr, Raise e, w1) =>
        let '(tr2, res, w2) := run B (h e) w1 in (tr ++ tr2, res, w2)
    end.
Proof.
  revert w. induction p as [x | e | o k IH | c k IH]; intros w; cbn.
  - reflexivity.
  - destruct (run B (h e) w) as [[tr res] w2]; reflexivity.
  - destruct (respond B o w) as [r w1]. rewrite IH.
    destruct (run B (k r) w1) as [[tr [x | e]] w2]; [reflexivity|].
    destruct (run B (h e) w2) as [[tr2 res] w3]; reflexivity.
  - destruct (respond_collab B c w) as [x w1]. rewrite IH.
    destruct (run B (k x) w1) as [[tr [y | e]] w2]; [reflexivity|].
    destruct (run B (h e) w2) as [[tr2 res] w3]; reflexivity.
Qed.

(** A handler that always returns turns any program into one that
    never raises. *)
Lemma try_except_returns {X} (p : prog X) (h : exception -> prog X) (w : World B) :
  (forall e w', raised (outcome_of B (h e) w') = false) ->
  raised (outcome_of B (try_except p h) w) = false.
Proof.
  intros Hh. unfold outcome_of. rewrite run_try_except.
  destruct (run B p w) as [[tr [x | e]] w1]; [reflexivity |].
  specialize (Hh e w1). unfold outcome_of in Hh.
  destruct (run B (h e) w1) as [[tr2 res] w2]. exact Hh.
Qed.

(** Both pipelines are of that form. *)
Lemma do_click_returns (page : Page) (selector : string)
    (wait_before_execution : Q) (w : World B) :
  raised (outcome_of B (Click.do_click page selector wait_before_execution) w)
    = false.
Proof.
  unfold Click.do_click, outcome_of.
  change (?p ;; ?q) with (bind p (fun _ => q)).
  rewrite run_bind.
  destruct (Qle_bool wait_before_execution 0);
    cbn [run await_collab mret prog_ret];
    [| destruct (respond_collab B (AsyncioSleep wait_before_execution) w)
         as [u w1]].
  all: match goal with
       | |- context [run B (try_except ?p ?h) ?w1] =>
           pose proof (try_except_returns p h w1 (fun _ _ => eq_refl)) as Hret;
           unfold outcome_of in Hret;
           destruct (run B (try_except p h) w1) as [[tr res] w2]
       end.
  all: exact Hret.
Qed.

Lemma do_entertext_returns (page : Page) (selector text_to_enter : string)
    (use_keyboard_fill : bool) (w : World B) :
  raised (outcome_of B (EnterText.do_entertext page selector text_to_enter
                          use_keyboard_fill) w)
    = false.
Proof. apply try_except_returns. reflexivity. Qed.

End RunLemmas.

(** Case analysis on the next answer of the browser. *)
Ltac next_answer :=
  match goal with
  | |- context [respond ?B ?o ?w] =>
      let r := fresh "r" in
      let w' := fresh "w" in
      let E := fresh "E" in
      destruct (respond B o w) as [r w'] eqn:E
  | |- context [respond_collab ?B ?c ?w] =>
      let x := fresh "x" in
      let w' := fresh "w" in
      let E := fresh "E" in
      destruct (respond_collab B c w) as [x w'] eqn:E
  end.

(** Case analysis on the next answer, down to its shape. *)
Ltac split_answer :=
  match goal with
  | |- context [respond ?B ?o ?w] =>
      let r := fresh "r" in
      let w' := fresh "w" in
      destruct (respond B o w) as [r w']; cbn in r;
      lazymatch type of r with
      | result (option _) => destruct r as [[?|]|?]
      | result unit => destruct r as [[]|?]
      | _ => destruct r as [?|?]
      end
  | |- context [respond_collab ?B ?c ?w] =>
      let x := fresh "x" in
      let w' := fresh "w" in
      destruct (respond_collab B c w) as [x w']; cbn in x;
      lazymatch type of x with
      | unit => destruct x
      | option _ => destruct x
      end
  end.

Lemma jsval_is_string_true (v : jsval) (s : string) :
  jsval_is_string v s = true -> v = JString s.
Proof.
  destruct v; cbn; try discriminate.
  intros H. apply String.eqb_eq in H. congruence.
Qed.

(** ** Every run of a pipeline leaves one of its logs *)

Create HintDb logs.
#[local] Hint Constructors option_log generic_log click_log : logs.
#[local] Hint Constructors fill_log nudge_log entry_log : logs.

Lemma do_click_log (B : Browser) (w : World B)
    (page : Page) (selector : string) (wait_before_execution : Q) :
  exists log s,
    (run B (Click.do_click page selector wait_before_execution) w).1
      = (pause wait_before_execution ++ log, Ok s)
    /\ click_log page selector log s.
Proof.
  unfold Click.do_click, pause. cbn.
  destruct (Qle_bool wait_before_execution 0); cbn.
  all: repeat (split_answer; cbn).
  all: try (eexists _, _; split; [reflexivity | eauto with logs; fail]).
  all: try (eexists _, _; split;
            [reflexivity | apply unattached; reflexivity]).
  all: destruct (jsval_is_string _ "option") eqn:Etag; cbn.
  all: try (apply jsval_is_string_true in Etag; subst).
  all: repeat (split_answer; cbn).
  all: eexists _, _; (split; [reflexivity | eauto with logs]).
Qed.

Lemma do_entertext_log (B : Browser) (w : World B)
    (page : Page) (selector text_to_enter : string) (use_keyboard_fill : bool) :
  exists log s,
    (run B (EnterText.do_entertext page selector text_to_enter use_keyboard_fill) w).1
      = (log, Ok s)
    /\ entry_log page selector text_to_enter use_keyboard_fill log s.
Proof.
  unfold EnterText.do_entertext, EnterText.custom_fill_element.
  destruct use_keyboard_fill; cbn.
  all: repeat (split_answer; cbn).
  all: eexists _, _; (split; [reflexivity |]).
  all: try (constructor; fail).
  all: try (eapply fill_failed; constructor; fail).
  all: match goal with
       | |- entry_log _ _ _ true (?q :: ?a :: ?b :: ?rest) _ =>
           change (q :: a :: b :: rest) with (q :: [a; b] ++ rest)
       | |- entry_log _ _ _ false (?q :: ?a :: ?rest) _ =>
           change (q :: a :: rest) with (q :: [a] ++ rest)
       end.
  all: eapply filled; constructor.
Qed.

(** ** The facades around the pipelines *)

Lemma click_unfolded (B : Browser) (w : World B)
    (selector : string) (wait_before_execution : Q) :
  let (page, w1) := respond_collab B GetCurrentPage w in
  match page with
  | None =>
      (run B (Click.click selector wait_before_execution) w).1
        = ([Collab GetCurrentPage None], Raise (ValueError no_active_page))
  | Some page =>
      let (u, w2) := respond_collab B (HighlightElement selector true) w1 in
      exists log s,
        (run B (Click.do_click page selector wait_before_execution) w2).1
          = (log, Ok s)
        /\ (run B (Click.click selector wait_before_execution) w).1
          = (Collab GetCurrentPage (Some page)
               :: Collab (HighlightElement selector true) tt
               :: log ++ [Collab (NotifyUser s) tt],
             Ok s)
  end.
Proof.
  unfold Click.click. cbn -[Click.do_click].
  destruct (respond_collab B GetCurrentPage w) as [[page|] w1];
    cbn -[Click.do_click]; [|reflexivity].
  destruct (respond_collab B (HighlightElement selector true) w1) as [[] w2].
  destruct (do_click_log B w2 page selector wait_before_execution)
    as (log & s & Hrun & _).
  exists (pause wait_before_execution ++ log), s. split; [exact Hrun|].
  change (Click.do_click page selector wait_before_execution ≫= _)
    with (bind (Click.do_click page selector wait_before_execution)
            (fun result => await_collab (NotifyUser result);; mret result)).
  rewrite run_bind.
  destruct (run B (Click.do_click page selector wait_before_execution) w2)
    as [[log' res] w3].
  cbn in Hrun. injection Hrun as -> ->. cbn.
  destruct (respond_collab B (NotifyUser s) w3) as [[] w4]. reflexivity.
Qed.

Lemma entertext_unfolded (B : Browser) (w : World B) (selector text_to_enter : string) :
  let (page, w1) := respond_collab B GetCurrentPage w in
  match page with
  | None =>
      (run B (EnterText.entertext
                {| EnterText.query_selector := selector;
                   EnterText.text := text_to_enter |}) w).1
        = ([Collab GetCurrentPage None], Ok ("Error: " ^^ no_active_page))
  | Some page =>
      let (u, w2) := respond_collab B (HighlightElement selector true) w1 in
      exists log s,
        (run B (EnterText.do_entertext page selector text_to_enter
                  EnterText.use_keyboard_fill_default) w2).1
          = (log, Ok s)
        /\ (run B (EnterText.entertext
                     {| EnterText.query_selector := selector;
                        EnterText.text := text_to_enter |}) w).1
          = (Collab GetCurrentPage (Some page)
               :: Collab (HighlightElement selector true) tt
               :: log ++ [Collab (NotifyUser s) tt],
             Ok s)
  end.
Proof.
  unfold EnterText.entertext. cbn -[EnterText.do_entertext].
  destruct (respond_collab B GetCurrentPage w) as [[page|] w1];
    cbn -[EnterText.do_entertext]; [|reflexivity].
  destruct (respond_collab B (HighlightElement selector true) w1) as [[] w2].
  destruct (do_entertext_log B w2 page selector text_to_enter
              EnterText.use_keyboard_fill_default)
    as (log & s & Hrun & _).
  exists log, s. split; [exact Hrun|].
  change (EnterText.do_entertext page selector text_to_enter
            EnterText.use_keyboard_fill_default ≫= _)
    with (bind (EnterText.do_entertext page selector text_to_enter
                  EnterText.use_keyboard_fill_default)
            (fun result => await_collab (NotifyUser result);; mret result)).
  rewrite run_bind.
  destruct (run B (EnterText.do_entertext page selector text_to_enter
                     EnterText.use_keyboard_fill_default) w2)
    as [[log' res] w3].
  cbn in Hrun. injection Hrun as -> ->. cbn.
  destruct (respond_collab B (NotifyUser s) w3) as [[] w4]. reflexivity.
Qed.

(** ** Reading interaction logs *)

Lemma jsval_eq_dec (a b : jsval) : {a = b} + {a <> b}.
Proof. decide equality; solve [apply string_dec | apply (decide _)]. Defined.

Lemma script_eq_dec (a b : script) : {a = b} + {a <> b}.
Proof. decide equality. Defined.

Lemma op_eq_dec (a b : op) : {a = b} + {a <> b}.
Proof.
  decide equality;
    solve [ apply Z.eq_dec | apply string_dec | apply Nat.eq_dec
          | apply jsval_eq_dec | apply script_eq_dec | apply Bool.bool_dec
          | decide equality; solve [apply Z.eq_dec | apply string_dec] ].
Defined.

(** Equal log entries are entries for the same call. *)
Lemma same_op (o o' : op) (r : result (resp o)) (r' : result (resp o')) :
  Called o r = Called o' r' -> o = o'.
Proof.
  intros H.
  apply (f_equal (fun ev => match ev with Called x _ => x | Collab _ _ => o end)) in H.
  exact H.
Qed.

(** Two log entries for the same call carry the same answer. *)
Lemma same_call (o : op) (r r' : result (resp o)) :
  Called o r = Called o r' -> r = r'.
Proof.
  intros H. inversion H as [H1].
  exact (Eqdep_dec.inj_pair2_eq_dec _ op_eq_dec _ _ _ _ H1).
Qed.

Lemma in_pause (ev : event) (wait_before_execution : Q) :
  In ev (pause wait_before_execution) ->
  ev = Collab (AsyncioSleep wait_before_execution) tt.
Proof.
  unfold pause. destruct (Qle_bool wait_before_execution 0); cbn; intuition.
Qed.

(** Compare two entries for calls: different calls clash, equal calls
    give equal arguments and equal answers. *)
Ltac read_call H :=
  match type of H with
  | Called ?o ?r = Called ?o' ?r' =>
      first [ discriminate H
            | let E := fresh "E" in
              pose proof (same_op _ _ _ _ H) as E;
              try (injection E; intros; subst);
              try clear E;
              apply same_call in H;
              first [ discriminate H
                    | injection H; clear H; intros; subst
                    | subst ] ]
  end.

(** Take membership facts about explicit logs apart, entry by entry. *)
Ltac read_log :=
  repeat match goal with
    | H : In _ (pause _) |- _ => apply in_pause in H
    | H : In _ (_ ++ _) |- _ => apply in_app_or in H; destruct H as [H | H]
    | H : In _ (_ :: _) |- _ => destruct H as [H | H]
    | H : In _ [] |- _ => destruct H
    | H : _ = _ \/ _ |- _ => destruct H as [H | H]
    | H : False |- _ => destruct H
    | H : Called _ _ = Collab _ _ |- _ => discriminate H
    | H : Collab _ _ = Called _ _ |- _ => discriminate H
    | H : Called _ _ = Called _ _ |- _ => read_call H
    end.

Lemma same_log (ev ev' : event) (log log' : list event) :
  ev :: log = ev' :: log' -> ev = ev' /\ log = log'.
Proof. intros H. injection H as H1 H2. auto. Qed.

(** Compare two explicit logs entry by entry. *)
Ltac match_logs :=
  repeat match goal with
    | H : _ :: _ = _ :: _ |- _ => apply same_log in H; destruct H
    | H : [] = _ :: _ |- _ => discriminate H
    | H : _ :: _ = [] |- _ => discriminate H
    | H : Called _ _ = Collab _ _ |- _ => discriminate H
    | H : Collab _ _ = Called _ _ |- _ => discriminate H
    | H : Called _ _ = Called _ _ |- _ => read_call H
    | H : Collab _ _ = Collab _ _ |- _ => clear H
    end;
  subst.

(** Enumerate the logs a pipeline can have left. *)
Ltac invert_logs :=
  repeat match goal with
    | H : click_log _ _ _ _ |- _ => inversion H; clear H; subst
    | H : option_log _ _ _ _ |- _ => inversion H; clear H; subst
    | H : generic_log _ _ _ _ _ |- _ => inversion H; clear H; subst
    | H : entry_log _ _ _ _ _ _ |- _ => inversion H; clear H; subst
    | H : fill_log _ _ _ _ _ _ _ |- _ => inversion H; clear H; subst
    | H : nudge_log _ _ _ _ _ _ |- _ => inversion H; clear H; subst
    end;
  unfold click_script, attached_wait, fill_script in *.

(** Whatever the click script answers, [do_click] reports a click. *)
Lemma script_answer_ignored (B : Browser) (w : World B)
    (page : Page) (selector : string) (wait_before_execution : Q)
    (r : result jsval) :
  In (Called (click_script page selector) r)
     (trace_of B (Click.do_click page selector wait_before_execution) w) ->
  outcome_of B (Click.do_click page selector wait_before_execution) w
    = Ok (clicked selector).
Proof.
  unfold trace_of, outcome_of.
  destruct (do_click_log B w page selector wait_before_execution)
    as (log & s & Hrun & Hlog).
  rewrite Hrun. cbn. intros Hin.
  invert_logs; try reflexivity; read_log.
Qed.

(** ** Sample runs on the fixture form *)

Example click_button_run :
  (run (Fixture.browser Fixture.page) (Click.click "#ok" 0) tt).1
  = ([Collab GetCurrentPage (Some 0);
      Collab (HighlightElement "#ok" true) tt;
      Called (attached_wait 0 "#ok") (Ok (Some 5));
      Called (ScrollIntoViewIfNeeded 5 200) (Ok tt);
      Called (WaitForElementState 5 "visible" 200) (Ok tt);
      Called (ElementEvaluate 5 js_tag_name) (Ok (JString "button"));
      Called (Focus 5) (Ok tt);
      Called (click_script 0 "#ok")
        (Ok (JString "Executed JavaScript Click on element with selector: #ok"));
      Collab (NotifyUser (clicked "#ok")) tt],
     Ok (clicked "#ok")).
Proof. vm_compute. reflexivity. Qed.

Example click_option_run :
  (run (Fixture.browser Fixture.page) (Click.click "#de" (1 # 2)) tt).1
  = ([Collab GetCurrentPage (Some 0);
      Collab (HighlightElement "#de" true) tt;
      Collab (AsyncioSleep (1 # 2)) tt;
      Called (attached_wait 0 "#de") (Ok (Some 3));
      Called (ScrollIntoViewIfNeeded 3 200) (Ok tt);
      Called (WaitForElementState 3 "visible" 200) (Ok tt);
      Called (ElementEvaluate 3 js_tag_name) (Ok (JString "option"));
      Called (GetAttribute 3 "value") (Ok (Some "de"));
      Called (ElementEvaluateHandle 3 js_parent_node) (Ok 4);
      Called (SelectOption 4 (Some "de")) (Ok ["de"]);
      Collab (NotifyUser (option_selected (Some "de"))) tt],
     Ok (option_selected (Some "de"))).
Proof. vm_compute. reflexivity. Qed.

Example entertext_run :
  (run (Fixture.browser Fixture.page)
     (EnterText.entertext
        {| EnterText.query_selector := "#name"; EnterText.text := "alice" |}) tt).1
  = ([Collab GetCurrentPage (Some 0);
      Collab (HighlightElement "#name" true) tt;
      Called (PageQuerySelector 0 "#name") (Ok (Some 2));
      Called (fill_script 0 "#name" "alice") (Ok JUndefined);
      Called (Focus 2) (Ok tt);
      Called (KeyboardType 0 " " None) (Ok tt);
      Collab (AsyncioSleep 1) tt;
      Collab (NotifyUser (text_set "#name" "alice")) tt],
     Ok (text_set "#name" "alice")).
Proof. vm_compute. reflexivity. Qed.

Example click_without_session_run :
  (run (Fixture.browser Fixture.no_session) (Click.click "#ok" 0) tt).1
  = ([Collab GetCurrentPage None], Raise (ValueError no_active_page)).
Proof. reflexivity. Qed.

Example text_set_spelled_out :
  text_set "#name" "alice"
  = "Success. Text " ^^ dq ^^ "alice" ^^ dq
      ^^ " set successfully in the element with selector #name".
Proof. reflexivity. Qed.

(** The message of a [KeyError] is its key between quotes. *)
Example key_error_str :
  exn_msg (KeyError "text") = "'text'"
  /\ exn_msg (KeyError "query_selector") = "'query_selector'"
  /\ exn_msg (KeyError "it's") = dq ^^ "it's" ^^ dq.
Proof. repeat split. Qed.

Example getitem_unknown_key :
  EnterText.__getitem__
    {| EnterText.query_selector := "#name"; EnterText.text := "alice" |} "value"
  = Throw (Raised "KeyError" "'value is not a valid key'").
Proof. reflexivity. Qed.

Example click_option_without_value_run :
  (run (Fixture.without_attributes Fixture.page) (Click.do_click 0 "#de" 0) tt).1
  = ([Called (attached_wait 0 "#de") (Ok (Some 3));
      Called (ScrollIntoViewIfNeeded 3 200) (Ok tt);
      Called (WaitForElementState 3 "visible" 200) (Ok tt);
      Called (ElementEvaluate 3 js_tag_name) (Ok (JString "option"));
      Called (GetAttribute 3 "value") (Ok None);
      Called (ElementEvaluateHandle 3 js_parent_node) (Ok 4);
      Called (SelectOption 4 None) (Ok [])],
     Ok ("Select menu option " ^^ dq ^^ "None" ^^ dq ^^ " selected")).
Proof. vm_compute. reflexivity. Qed.

(** ** Selectors that never attach *)

(** C1.  If a page is open and the selector never reaches the attached
    state, [click] returns its failure string and [entertext] returns one
    of its two failure strings; neither raises. *)
Theorem unattached_selector_reports_failure
    (B : Browser) (w : World B) (page : Page)
    (selector text : string) (wait_before_execution : Q) :
  active_page B w page ->
  never_attached B selector ->
  outcome_of B (Click.click selector wait_before_execution) w
    = Ok (click_failed selector)
  /\ (outcome_of B (EnterText.entertext
                     {| EnterText.query_selector := selector;
                        EnterText.text := text |}) w
        = Ok (selector_not_found selector)
      \/ exists e,
          outcome_of B (EnterText.entertext
                          {| EnterText.query_selector := selector;
                             EnterText.text := text |}) w
            = Ok (entry_failed selector e)).
Proof.
  unfold active_page, never_attached, outcome_of. intros Hpage Hnever. split.
  - unfold Click.click, Click.do_click. cbn.
    next_answer. cbn in Hpage. subst x. cbn.
    next_answer.
    destruct (Qle_bool wait_before_execution 0); cbn.
    + next_answer. 
      pose proof (Hnever page w1) as [Hw _]. rewrite E1 in Hw. 
      destruct r as [[h|]|e]; cbn in *; try discriminate.
      * next_answer. reflexivity.
      * next_answer. reflexivity.
    + next_answer. next_answer.
      pose proof (Hnever page w2) as [Hw _]. rewrite E2 in Hw.
      destruct r as [[h|]|e]; cbn in *; try discriminate.
      * next_answer. reflexivity.
      * next_answer. reflexivity.
  - unfold EnterText.entertext, EnterText.do_entertext. cbn.
    next_answer. cbn in Hpage. subst x. cbn.
    next_answer. next_answer.
    pose proof (Hnever page w1) as [_ Hw]. rewrite E1 in Hw.
    destruct r as [[h|]|e]; cbn in *; try discriminate.
    + left. next_answer. reflexivity.
    + right. exists e. next_answer. reflexivity.
Qed.

Lemma unattached_selector_reports_failure_witness :
  outcome_of (Fixture.browser Fixture.page) (Click.click "#missing" 0) tt
    = Ok (click_failed "#missing")
  /\ (outcome_of (Fixture.browser Fixture.page)
         (EnterText.entertext
            {| EnterText.query_selector := "#missing";
               EnterText.text := "alice" |}) tt
        = Ok (selector_not_found "#missing")
      \/ exists e,
          outcome_of (Fixture.browser Fixture.page)
            (EnterText.entertext
               {| EnterText.query_selector := "#missing";
                  EnterText.text := "alice" |}) tt
            = Ok (entry_failed "#missing" e)).
Proof.
  apply (unattached_selector_reports_failure
           (Fixture.browser Fixture.page) tt 0 "#missing" "alice" 0).
  - reflexivity.
  - intros page []. split; reflexivity.
Defined.

(** ** Failures of the click action *)

(** C2.  On the fixture page whose script evaluation throws, the click on
    the button [#ok] logs the thrown error as the answer of the click
    script and still returns the success string: the exception is caught
    inside [perform_javascript_click] and never reaches the handler of
    [do_click]. *)
Theorem failed_click_script_reported_as_clicked :
  In (Called (click_script 0 "#ok")
        (Raise (PlaywrightError "Execution context was destroyed")))
     (trace_of (Fixture.browser Fixture.broken_page) (Click.click "#ok" 0) tt)
  /\ outcome_of (Fixture.browser Fixture.broken_page) (Click.click "#ok" 0) tt
     = Ok (clicked "#ok")
  /\ clicked "#ok" <> click_failed "#ok".
Proof.
  split; [| split].
  - vm_compute. do 7 right. left. reflexivity.
  - vm_compute. reflexivity.
  - vm_compute. discriminate.
Qed.

(** ** The session check *)

(** C3, as stated, fails for [entertext]: with no page open it returns a
    string instead of raising. *)
Lemma entertext_without_session_returns :
  (respond_collab (Fixture.browser Fixture.no_session) GetCurrentPage tt).1 = None
  /\ outcome_of (Fixture.browser Fixture.no_session)
       (EnterText.entertext
          {| EnterText.query_selector := "#name"; EnterText.text := "alice" |}) tt
     = Ok "Error: No active page found. OpenURL command opens a new page."
  /\ ~ (exists e,
          outcome_of (Fixture.browser Fixture.no_session)
            (EnterText.entertext
               {| EnterText.query_selector := "#name"; EnterText.text := "alice" |})
            tt
          = Raise e).
Proof.
  split; [reflexivity | split; [reflexivity |]].
  intros [e He]. vm_compute in He. discriminate He.
Qed.

(** C3, amended.  With no page open, [click] raises [ValueError] while
    [entertext] returns the string "Error: No active page found. OpenURL
    command opens a new page."; with a page open neither of them raises. *)
Theorem session_check
    (B : Browser) (w : World B)
    (selector text : string) (wait_before_execution : Q) :
  match (respond_collab B GetCurrentPage w).1 with
  | None =>
      outcome_of B (Click.click selector wait_before_execution) w
        = Raise (ValueError no_active_page)
      /\ outcome_of B (EnterText.entertext
                         {| EnterText.query_selector := selector;
                            EnterText.text := text |}) w
         = Ok ("Error: " ^^ no_active_page)
  | Some page =>
      raised (outcome_of B (Click.click selector wait_before_execution) w) = false
      /\ raised (outcome_of B (EnterText.entertext
                                 {| EnterText.query_selector := selector;
                                    EnterText.text := text |}) w) = false
  end.
Proof.
  unfold outcome_of.
  pose proof (click_unfolded B w selector wait_before_execution) as Hclick.
  pose proof (entertext_unfolded B w selector text) as Hentry.
  destruct (respond_collab B GetCurrentPage w) as [[page|] w1]; cbn [fst].
  - destruct (respond_collab B (HighlightElement selector true) w1) as [u w2].
    destruct Hclick as (log & s & _ & ->).
    destruct Hentry as (log' & s' & _ & ->).
    split; reflexivity.
  - rewrite Hclick, Hentry. split; reflexivity.
Qed.

(** ** Clicking an option *)

Lemma option_log_run (selector : string) (element : ElementHandle)
    (rest : list event) (s : string) :
  option_log selector element rest s -> option_run selector element rest s.
Proof.
  intros Hlog. unfold option_run. destruct Hlog as [e | v e | v parent e | v parent chosen].
  - exists (Raise e). split; reflexivity.
  - exists (Ok v), (Raise e). split; reflexivity.
  - exists (Ok v), (Ok parent), (Raise e). split; reflexivity.
  - exists (Ok v), (Ok parent), (Ok chosen). split; reflexivity.
Qed.

Lemma generic_log_run (page : Page) (selector : string) (element : ElementHandle)
    (rest : list event) (s : string) :
  generic_log page selector element rest s ->
  generic_run page selector element rest s.
Proof.
  intros Hlog. unfold generic_run. destruct Hlog as [e | r].
  - exists (Raise e). split; reflexivity.
  - exists (Ok tt). cbn. exists r. split; reflexivity.
Qed.




(** The same on an option without a value attribute: the parent is still
    looked up and select-option is still called, with no value. *)
Example option_without_value_selects :
  exists r,
    In (Called (SelectOption 4 None) r)
       (trace_of (Fixture.without_attributes Fixture.page)
          (Click.do_click 0 "#de" 0) tt)
    /\ outcome_of (Fixture.without_attributes Fixture.page)
         (Click.do_click 0 "#de" 0) tt
       = Ok (option_selected None).
Proof.
  exists (Ok []). split.
  - vm_compute. do 6 right. left. reflexivity.
  - reflexivity.
Qed.

(** ** The soft waits *)

(** C9.  In a run of [do_click] in which the element was attached, the log
    goes on with the scroll into view and the wait for visibility, each
    with its own 200 ms bound, and then with the tag-name evaluation,
    whatever the two waits answered.  From there the run is the option
    branch or the generic branch, chosen by the tag name alone: in the
    generic branch the element is focused and the click script is sent,
    and the string returned is the success string.  The answers of the two
    waits appear nowhere in the outcome: the failure string is returned
    only if the tag-name evaluation or a later call raised. *)
Theorem soft_waits_absorbed
    (B : Browser) (w : World B)
    (page : Page) (selector : string) (wait_before_execution : Q)
    (element : ElementHandle) :
  let log := trace_of B (Click.do_click page selector wait_before_execution) w in
  let outcome := outcome_of B (Click.do_click page selector wait_before_execution) w in
  In (Called (attached_wait page selector) (Ok (Some element))) log ->
  exists r1 r2 r3 rest,
    log = pause wait_before_execution
            ++ Called (attached_wait page selector) (Ok (Some element))
            :: Called (ScrollIntoViewIfNeeded element 200) r1
            :: Called (WaitForElementState element "visible" 200) r2
            :: Called (ElementEvaluate element js_tag_name) r3
            :: rest
    /\ exists s,
        outcome = Ok s
        /\ (s = click_failed selector ->
            raised r3 = true \/ existsb call_raised rest = true)
        /\ match r3 with
           | Raise _ => rest = [] /\ s = click_failed selector
           | Ok tag =>
               if jsval_is_string tag "option"
               then option_run selector element rest s
               else generic_run page selector element rest s
           end.
Proof.
  unfold trace_of, outcome_of. cbn zeta.
  destruct (do_click_log B w page selector wait_before_execution)
    as (log & s & -> & Hlog).
  cbn [fst snd]. intros Hwait.
  assert (Hclicked : clicked selector <> click_failed selector).
  { unfold clicked, click_failed. cbn. discriminate. }
  assert (Hselected : forall v, option_selected v <> click_failed selector).
  { intros v. unfold option_selected, click_failed. cbn. discriminate. }
  inversion Hlog as [r Hr | el r1 r2 e | el r1 r2 rest s' Hrest
                     | el r1 r2 tag rest s' Htag Hrest]; subst;
    unfold attached_wait in *.
  - read_log. discriminate Hr.
  - read_log. eexists _, _, _, _. split; [reflexivity |].
    eexists. split; [reflexivity |]. split; [left; reflexivity |].
    split; reflexivity.
  - pose proof (option_log_run _ _ _ _ Hrest) as Hrun.
    inversion Hrest; subst; read_log.
    all: eexists _, _, _, _; (split; [reflexivity |]).
    all: eexists; (split; [reflexivity |]).
    all: split; [| exact Hrun].
    all: intros Hfailed; first [right; reflexivity | exfalso; exact (Hselected _ Hfailed)].
  - pose proof (generic_log_run _ _ _ _ _ Hrest) as Hrun.
    inversion Hrest; subst; unfold click_script in *; read_log.
    all: eexists _, _, _, _; (split; [reflexivity |]).
    all: eexists; (split; [reflexivity |]).
    all: cbn match; rewrite Htag.
    all: split; [| exact Hrun].
    all: intros Hfailed; first [right; reflexivity | exfalso; exact (Hclicked Hfailed)].
Qed.

Lemma soft_waits_absorbed_witness :
  In (Called (ScrollIntoViewIfNeeded 5 200)
        (Raise (TimeoutError "Timeout 200ms exceeded.")))
     (trace_of (Fixture.browser Fixture.hidden_page) (Click.do_click 0 "#ok" 0) tt)
  /\ In (Called (WaitForElementState 5 "visible" 200)
           (Raise (TimeoutError "Timeout 200ms exceeded.")))
        (trace_of (Fixture.browser Fixture.hidden_page) (Click.do_click 0 "#ok" 0) tt)
  /\ outcome_of (Fixture.browser Fixture.hidden_page) (Click.do_click 0 "#ok" 0) tt
     = Ok (clicked "#ok")
  /\ exists r1 r2 r3 rest,
      trace_of (Fixture.browser Fixture.hidden_page) (Click.do_click 0 "#ok" 0) tt
        = pause 0
            ++ Called (attached_wait 0 "#ok") (Ok (Some 5))
            :: Called (ScrollIntoViewIfNeeded 5 200) r1
            :: Called (WaitForElementState 5 "visible" 200) r2
            :: Called (ElementEvaluate 5 js_tag_name) r3
            :: rest
      /\ exists s,
          outcome_of (Fixture.browser Fixture.hidden_page)
            (Click.do_click 0 "#ok" 0) tt = Ok s
          /\ (s = click_failed "#ok" ->
              raised r3 = true \/ existsb call_raised rest = true)
          /\ match r3 with
             | Raise _ => rest = [] /\ s = click_failed "#ok"
             | Ok tag =>
                 if jsval_is_string tag "option"
                 then option_run "#ok" 5 rest s
                 else generic_run 0 "#ok" 5 rest s
             end.
Proof.
  split; [| split; [| split]].
  - vm_compute. right. left. reflexivity.
  - vm_compute. do 2 right. left. reflexivity.
  - reflexivity.
  - apply (soft_waits_absorbed (Fixture.browser Fixture.hidden_page) tt 0 "#ok" 0 5).
    vm_compute. left. reflexivity.
Defined.

(** ** A click that clicks nothing *)

(** C10.  If the host-side wait found the element but the click script,
    resolving the selector again inside the page, answers with its
    not-found message, [do_click] still returns the success string.  The
    script gives that answer when its own lookup finds nothing, and then
    clicks nothing and leaves the page as it was. *)
Theorem stale_click_reported_as_clicked
    (B : Browser) (w : World B)
    (page : Page) (selector : string) (wait_before_execution : Q)
    (element : ElementHandle) (doc : InPage.Document) :
  let log := trace_of B (Click.do_click page selector wait_before_execution) w in
  let not_found :=
    "perform_javascript_click: Element with selector " ^^ selector ^^ " not found" in
  In (Called (attached_wait page selector) (Ok (Some element))) log ->
  In (Called (click_script page selector) (Ok (JString not_found))) log ->
  InPage.querySelector doc selector = Ok None ->
  outcome_of B (Click.do_click page selector wait_before_execution) w
    = Ok (clicked selector)
  /\ InPage.click_code selector doc
     = ([InPage.ConsoleLog [not_found]], Ok (JString not_found), doc).
Proof.
  cbn zeta. intros _ Hscript Hnone. split.
  - exact (script_answer_ignored B w page selector wait_before_execution _ Hscript).
  - unfold InPage.click_code. rewrite Hnone. reflexivity.
Qed.

Lemma stale_click_reported_as_clicked_witness :
  outcome_of (Fixture.browser Fixture.stale_page) (Click.do_click 0 "#ok" 0) tt
    = Ok (clicked "#ok")
  /\ InPage.click_code "#ok" Fixture.form_without_button
     = ([InPage.ConsoleLog
           ["perform_javascript_click: Element with selector #ok not found"]],
        Ok (JString "perform_javascript_click: Element with selector #ok not found"),
        Fixture.form_without_button).
Proof.
  apply (stale_click_reported_as_clicked
           (Fixture.browser Fixture.stale_page) tt 0 "#ok" 0 5
           Fixture.form_without_button).
  - vm_compute. left. reflexivity.
  - vm_compute. do 5 right. left. reflexivity.
  - reflexivity.
Defined.

(** ** The click script *)

Lemma in_page_link_click (selector : string) (doc : InPage.Document) (n : nat) :
  InPage.querySelector doc selector = Ok (Some n) ->
  InPage.toLowerCase (InPage.tagName (InPage.node doc n)) = "a" ->
  InPage.click_code selector doc
    = ([InPage.ConsoleLog ["About to click selector"; selector];
        InPage.SetProperty n "target" "_self";
        InPage.NativeClick n],
       Ok (JString ("Executed JavaScript Click on element with selector: "
                      ^^ selector)),
       InPage.update n (InPage.set_target "_self") doc).
Proof.
  intros Hquery Htag. unfold InPage.click_code. rewrite Hquery, Htag. reflexivity.
Qed.

(** C6.  A run of [do_click] that classified the element as something
    other than an option and focused it sends the click script, and every
    script evaluation [do_click] issues is that script applied to the
    selector string itself, not to a handle.  Run on a document in which
    the selector resolves to an element whose lower-cased tag name is [a],
    the script writes [_self] to the target of that element and only then
    clicks it; afterwards the target of the element is [_self]. *)
Theorem click_script_resolves_in_page
    (B : Browser) (w : World B)
    (page : Page) (selector : string) (wait_before_execution : Q)
    (doc : InPage.Document) (n : nat) :
  let log := trace_of B (Click.do_click page selector wait_before_execution) w in
  (forall element tag,
      In (Called (ElementEvaluate element js_tag_name) (Ok tag)) log ->
      jsval_is_string tag "option" = false ->
      In (Called (Focus element) (Ok tt)) log ->
      exists r, In (Called (click_script page selector) r) log)
  /\ Forall (fun ev =>
               forall p code arg r,
                 ev = Called (PageEvaluate p code arg) r ->
                 p = page /\ code = js_click_code /\ arg = JString selector)
            log
  /\ (InPage.querySelector doc selector = Ok (Some n) ->
      InPage.toLowerCase (InPage.tagName (InPage.node doc n)) = "a" ->
      exists doc',
        InPage.click_code selector doc
          = ([InPage.ConsoleLog ["About to click selector"; selector];
              InPage.SetProperty n "target" "_self";
              InPage.NativeClick n],
             Ok (JString ("Executed JavaScript Click on element with selector: "
                            ^^ selector)),
             doc')
        /\ InPage.target (InPage.node doc' n) = "_self"
        /\ forall m, m <> n -> InPage.node doc' m = InPage.node doc m).
Proof.
  cbn zeta. split; [| split].
  - unfold trace_of.
    destruct (do_click_log B w page selector wait_before_execution)
      as (log & s & -> & Hlog).
    cbn [fst]. intros element tag Htag Hgeneric Hfocus.
    invert_logs; read_log; try discriminate.
    eexists. apply in_or_app. right. cbn. do 5 right. left. reflexivity.
  - unfold trace_of.
    destruct (do_click_log B w page selector wait_before_execution)
      as (log & s & -> & Hlog).
    cbn [fst]. apply Forall_app. split.
    + unfold pause. destruct (Qle_bool wait_before_execution 0);
        repeat first [apply List.Forall_nil | apply List.Forall_cons];
        intros; discriminate.
    + invert_logs; repeat first [apply List.Forall_nil | apply List.Forall_cons].
      all: intros p code arg r' Hev; try discriminate Hev.
      pose proof (same_op _ _ _ _ Hev) as E. injection E as <- <- <-. auto.
  - intros Hquery Htag. eexists. split; [| split].
    + exact (in_page_link_click selector doc n Hquery Htag).
    + cbn. rewrite Nat.eqb_refl. reflexivity.
    + intros m Hm. cbn. apply Nat.eqb_neq in Hm. rewrite Hm. reflexivity.
Qed.

Lemma click_script_resolves_in_page_witness :
  (exists r,
      In (Called (click_script 0 "#go") r)
         (trace_of (Fixture.browser Fixture.page) (Click.do_click 0 "#go" 0) tt))
  /\ exists doc',
    InPage.click_code "#go" Fixture.form
      = ([InPage.ConsoleLog ["About to click selector"; "#go"];
          InPage.SetProperty 1 "target" "_self";
          InPage.NativeClick 1],
         Ok (JString "Executed JavaScript Click on element with selector: #go"),
         doc')
    /\ InPage.target (InPage.node doc' 1) = "_self"
    /\ forall m, m <> 1 -> InPage.node doc' m = InPage.node Fixture.form m.
Proof.
  destruct (click_script_resolves_in_page
              (Fixture.browser Fixture.page) tt 0 "#go" 0 Fixture.form 1)
    as (Hsent & _ & Hscript).
  split.
  - apply (Hsent 1 (JString "a")).
    + vm_compute. do 3 right. left. reflexivity.
    + reflexivity.
    + vm_compute. do 4 right. left. reflexivity.
  - apply Hscript; reflexivity.
Defined.

(** ** Text entry *)

(** C7.  In a run of [do_entertext] whose fill mechanism went through
    (the fill script returned, or the focus and the typing of the text
    succeeded), the next call focuses the element again.  If that focus
    succeeds, exactly one keystroke follows, a single space; if that
    succeeds too, a sleep of one second follows and the success string is
    returned.  The success string is returned in no other way. *)
Theorem nudge_after_fill
    (B : Browser) (w : World B)
    (page : Page) (selector text_to_enter : string) (use_keyboard_fill : bool)
    (elem : ElementHandle) (v : jsval) (rest : list event) :
  let log :=
    trace_of B (EnterText.do_entertext page selector text_to_enter use_keyboard_fill) w in
  let outcome :=
    outcome_of B (EnterText.do_entertext page selector text_to_enter use_keyboard_fill) w in
  let filling :=
    if use_keyboard_fill
    then [Called (Focus elem) (Ok tt);
          Called (KeyboardType page text_to_enter (Some 2%Z)) (Ok tt)]
    else [Called (fill_script page selector text_to_enter) (Ok v)] in
  log = Called (PageQuerySelector page selector) (Ok (Some elem)) :: filling ++ rest ->
  exists rf after,
    rest = Called (Focus elem) rf :: after
    /\ (raised rf = false ->
        exists rk,
          after = Called (KeyboardType page " " None) rk
                    :: (if raised rk then [] else [Collab (AsyncioSleep 1) tt])
          /\ (raised rk = false -> outcome = Ok (text_set selector text_to_enter)))
    /\ (outcome = Ok (text_set selector text_to_enter) ->
        after = [Called (KeyboardType page " " None) (Ok tt);
                 Collab (AsyncioSleep 1) tt]).
Proof.
  unfold trace_of, outcome_of. cbn zeta.
  destruct (do_entertext_log B w page selector text_to_enter use_keyboard_fill)
    as (log & s & -> & Hlog).
  cbn [fst snd].
  assert (Hfail : forall e, Ok (entry_failed selector e)
                            <> Ok (text_set selector text_to_enter)).
  { intros e. unfold entry_failed, text_set. cbn. discriminate. }
  destruct use_keyboard_fill; invert_logs; cbn; intros Hshape.
  all: match_logs.
  all: eexists _, _; (split; [reflexivity |]).
  all: split; [intros Hrf; try discriminate Hrf | intros Hout].
  all: try match goal with
         | |- exists rk, Called _ ?r :: _ = _ /\ _ =>
             exists r; split; [reflexivity | intros Hrk; try discriminate Hrk;
                                             reflexivity]
         end.
  all: try reflexivity.
  all: try (exfalso; exact (Hfail _ Hout)).
Qed.

Lemma nudge_after_fill_witness :
  exists rf after,
    [Called (Focus 2) (Ok tt); Called (KeyboardType 0 " " None) (Ok tt);
     Collab (AsyncioSleep 1) tt]
      = Called (Focus 2) rf :: after
    /\ (raised rf = false ->
        exists rk,
          after = Called (KeyboardType 0 " " None) rk
                    :: (if raised rk then [] else [Collab (AsyncioSleep 1) tt])
          /\ (raised rk = false ->
              outcome_of (Fixture.browser Fixture.page)
                (EnterText.do_entertext 0 "#name" "alice" false) tt
              = Ok (text_set "#name" "alice")))
    /\ (outcome_of (Fixture.browser Fixture.page)
          (EnterText.do_entertext 0 "#name" "alice" false) tt
        = Ok (text_set "#name" "alice") ->
        after = [Called (KeyboardType 0 " " None) (Ok tt);
                 Collab (AsyncioSleep 1) tt]).
Proof.
  apply (nudge_after_fill (Fixture.browser Fixture.page) tt 0 "#name" "alice"
           false 2 JUndefined).
  vm_compute. reflexivity.
Defined.

Lemma in_page_fill (selector text_to_enter : string) (doc : InPage.Document) (n : nat) :
  InPage.querySelector doc selector = Ok (Some n) ->
  InPage.fill_code
    {[ "selector" := selector; "text_to_enter" := text_to_enter ]} doc
    = ([InPage.SetProperty n "value" text_to_enter], Ok JUndefined,
       InPage.update n (InPage.set_value text_to_enter) doc).
Proof.
  intros Hquery. unfold InPage.fill_code, InPage.property.
  rewrite lookup_insert_eq. rewrite lookup_insert_ne by discriminate.
  rewrite lookup_singleton_eq. cbn. rewrite Hquery. reflexivity.
Qed.

(** C8.  The mode flag defaults to direct assignment.  A run of
    [entertext] therefore dispatches at most one keystroke call, the
    single trailing space, and every script it evaluates is the fill
    script applied to the selector and the text.  Run on a document in
    which the selector resolves to an element, that script does nothing
    but write the text to the value of that element: it dispatches no
    event, and afterwards the value is exactly the text. *)
Theorem direct_assignment_by_default
    (B : Browser) (w : World B) (selector text_to_enter : string)
    (doc : InPage.Document) (n : nat) :
  let log :=
    trace_of B (EnterText.entertext
                  {| EnterText.query_selector := selector;
                     EnterText.text := text_to_enter |}) w in
  EnterText.use_keyboard_fill_default = false
  /\ (List.filter keystroke log = []
      \/ exists p r, List.filter keystroke log = [Called (KeyboardType p " " None) r])
  /\ Forall (fun ev =>
               forall p code arg r,
                 ev = Called (PageEvaluate p code arg) r ->
                 code = js_fill_code
                 /\ arg = JObject {[ "selector" := selector;
                                     "text_to_enter" := text_to_enter ]})
            log
  /\ (forall p elem,
        In (Called (PageQuerySelector p selector) (Ok (Some elem))) log ->
        exists r, In (Called (fill_script p selector text_to_enter) r) log)
  /\ (InPage.querySelector doc selector = Ok (Some n) ->
      exists doc',
        InPage.fill_code
          {[ "selector" := selector; "text_to_enter" := text_to_enter ]} doc
          = ([InPage.SetProperty n "value" text_to_enter], Ok JUndefined, doc')
        /\ InPage.value (InPage.node doc' n) = text_to_enter
        /\ forall m, m <> n -> InPage.node doc' m = InPage.node doc m).
Proof.
  cbn zeta. split; [reflexivity |].
  match goal with
  | |- ?P /\ ?Q /\ ?R /\ ?S => cut ((P /\ Q /\ R) /\ S); [tauto |]
  end.
  split.
  - unfold trace_of.
    pose proof (entertext_unfolded B w selector text_to_enter) as Hentry.
    destruct (respond_collab B GetCurrentPage w) as [[page|] w1].
    + destruct (respond_collab B (HighlightElement selector true) w1) as [u w2].
      destruct Hentry as (log & s & Hrun & ->). cbn [fst].
      destruct (do_entertext_log B w2 page selector text_to_enter
                  EnterText.use_keyboard_fill_default)
        as (log' & s' & Hrun' & Hlog).
      rewrite Hrun' in Hrun. injection Hrun as <- <-.
      unfold EnterText.use_keyboard_fill_default in Hlog.
      invert_logs; cbn.
      all: split; [eauto | split].
      all: repeat first [apply List.Forall_nil | apply List.Forall_cons].
      all: try (intros p code arg r' Hev; try discriminate Hev;
                pose proof (same_op _ _ _ _ Hev) as E;
                injection E as <- <- <-; auto; fail).
      all: intros p elem' Hquery; read_log; try discriminate.
      all: eexists; do 3 right; left; reflexivity.
    + rewrite Hentry. cbn. split; [left; reflexivity | split].
      * repeat first [apply List.Forall_nil | apply List.Forall_cons].
        intros; discriminate.
      * intros p elem' Hquery. read_log.
  - intros Hquery. eexists. split; [| split].
    + exact (in_page_fill selector text_to_enter doc n Hquery).
    + cbn. rewrite Nat.eqb_refl. reflexivity.
    + intros m Hm. cbn. apply Nat.eqb_neq in Hm. rewrite Hm. reflexivity.
Qed.

Lemma direct_assignment_by_default_witness :
  (exists r,
      In (Called (fill_script 0 "#name" "alice") r)
         (trace_of (Fixture.browser Fixture.page)
            (EnterText.entertext
               {| EnterText.query_selector := "#name";
                  EnterText.text := "alice" |}) tt))
  /\ exists doc',
    InPage.fill_code {[ "selector" := "#name"; "text_to_enter" := "alice" ]}
      Fixture.form
      = ([InPage.SetProperty 2 "value" "alice"], Ok JUndefined, doc')
    /\ InPage.value (InPage.node doc' 2) = "alice"
    /\ forall m, m <> 2 -> InPage.node doc' m = InPage.node Fixture.form m.
Proof.
  destruct (direct_assignment_by_default
              (Fixture.browser Fixture.page) tt "#name" "alice" Fixture.form 2)
    as (_ & _ & _ & Hfill & Hscript).
  split.
  - apply (Hfill 0 2). vm_compute. do 2 right. left. reflexivity.
  - apply Hscript. reflexivity.
Defined.

(** ** The batch runner *)

Section Batch.
Context (B : Browser).
Import EnterText.

Lemma entertext_returns (w : World B) (selector text_to_enter : string) :
  exists result,
    outcome_of B (entertext {| query_selector := selector; text := text_to_enter |}) w
      = Ok result.
Proof.
  unfold outcome_of.
  pose proof (entertext_unfolded B w selector text_to_enter) as Hentry.
  destruct (respond_collab B GetCurrentPage w) as [[page|] w1].
  - destruct (respond_collab B (HighlightElement selector true) w1) as [u w2].
    destruct Hentry as (log & s & _ & ->). eauto.
  - rewrite Hentry. eauto.
Qed.

(** One turn of the loop: the entry is attempted and its result appended. *)
Lemma step_run (w : World B) (entry : gmap string string)
    (results : list (gmap string string)) (selector text_to_enter : string) :
  entry !! "query_selector" = Some selector ->
  entry !! "text" = Some text_to_enter ->
  exists result,
    outcome_of B (entertext {| query_selector := selector; text := text_to_enter |}) w
      = Ok result
    /\ outcome_of B (bulk_enter_text_step entry results) w
       = Ok (results ++ [entry_result selector result])
    /\ world_after B (bulk_enter_text_step entry results) w
       = world_after B
           (entertext {| query_selector := selector; text := text_to_enter |}) w.
Proof.
  intros Hselector Htext.
  destruct (entertext_returns w selector text_to_enter) as [result Hresult].
  exists result. split; [exact Hresult |].
  unfold outcome_of, world_after, bulk_enter_text_step, dict_getitem in *.
  rewrite Hselector, Htext.
  cbn -[entertext].
  change (entertext ?entry ≫= ?f) with (bind (entertext entry) f).
  rewrite run_bind.
  destruct (run B (entertext _) w) as [[log res] w1].
  cbn in Hresult. subst res. cbn. split; reflexivity.
Qed.

Lemma run_for_each_cons {A S} (x : A) (xs : list A)
    (f : A -> S -> prog S) (acc : S) (w : World B) :
  run B (for_each (x :: xs) f acc) w =
    match run B (f x acc) w with
    | (tr, Ok acc', w1) =>
        let '(tr2, res, w2) := run B (for_each xs f acc') w1 in
        (tr ++ tr2, res, w2)
    | (tr, Raise e, w1) => (tr, Raise e, w1)
    end.
Proof. exact (run_bind B (f x acc) (for_each xs f) w). Qed.

(** After a first entry that returned [result], the loop goes on from the
    state that entry left, with its dictionary appended. *)
Lemma loop_after_first (w : World B) (entry : gmap string string)
    (rest acc : list (gmap string string)) (selector result : string) :
  outcome_of B (bulk_enter_text_step entry acc) w
    = Ok (acc ++ [entry_result selector result]) ->
  run B (for_each (entry :: rest) bulk_enter_text_step acc) w
    = let '(tr2, res, w2) :=
        run B (for_each rest bulk_enter_text_step
                 (acc ++ [entry_result selector result]))
          (world_after B (bulk_enter_text_step entry acc) w) in
      (trace_of B (bulk_enter_text_step entry acc) w ++ tr2, res, w2).
Proof.
  intros Hstep. rewrite run_for_each_cons.
  unfold outcome_of, world_after, trace_of in *.
  destruct (run B (bulk_enter_text_step entry acc) w) as [[tr res] w1].
  cbn in Hstep. subst res. reflexivity.
Qed.

(** The loop, from any accumulated results. *)
Lemma loop_in_order (entries : list (gmap string string)) :
  Forall well_formed_entry entries ->
  forall (acc : list (gmap string string)) (w : World B),
  exists new,
    outcome_of B (for_each entries bulk_enter_text_step acc) w = Ok (acc ++ new)
    /\ length new = length entries
    /\ forall i entry,
        entries !! i = Some entry ->
        exists selector text_to_enter result,
          entry !! "query_selector" = Some selector
          /\ entry !! "text" = Some text_to_enter
          /\ outcome_of B
               (entertext {| query_selector := selector; text := text_to_enter |})
               (world_after B
                  (for_each (take i entries) bulk_enter_text_step acc) w)
             = Ok result
          /\ new !! i = Some (entry_result selector result).
Proof.
  induction 1 as [| entry entries [[selector Hselector] [text_to_enter Htext]] _ IH];
    intros acc w.
  - exists []. cbn. rewrite app_nil_r. repeat split. intros i entry Hi.
    rewrite lookup_nil in Hi. discriminate.
  - destruct (step_run w entry acc selector text_to_enter Hselector Htext)
      as (result & Hresult & Hstep & Hworld).
    pose proof (fun rest => loop_after_first w entry rest acc selector result Hstep)
      as Hloop.
    set (w1 := world_after B (bulk_enter_text_step entry acc) w) in *.
    destruct (IH (acc ++ [entry_result selector result]) w1)
      as (new & Hout & Hlen & Hnew).
    exists (entry_result selector result :: new).
    split; [| split].
    + unfold outcome_of in *. rewrite Hloop.
      destruct (run B (for_each entries bulk_enter_text_step _) w1)
        as [[tr2 res] w2].
      cbn in *. rewrite Hout, <- app_assoc. reflexivity.
    + cbn. rewrite Hlen. reflexivity.
    + intros [| i] entry' Hi; cbn in Hi.
      * injection Hi as <-.
        exists selector, text_to_enter, result. cbn. auto.
      * destruct (Hnew i entry' Hi)
          as (selector' & text' & result' & Hs & Ht & Hr & Hi').
        exists selector', text', result'. repeat split; try assumption.
        rewrite <- Hr. f_equal. cbn [take].
        unfold world_after. rewrite Hloop.
        destruct (run B (for_each (take i entries) bulk_enter_text_step _) w1)
          as [[tr2 res] w2].
        reflexivity.
Qed.

End Batch.

(** C4.  On a batch whose entries all carry both keys, [bulk_enter_text]
    returns a list with one dictionary per entry, in the order of the
    entries: the dictionary at position [i] holds the selector of entry [i]
    and the string [entertext] returned for it, run in the state the
    browser reached after the entries before it, whatever those entries
    returned. *)
Theorem bulk_enter_text_in_order
    (B : Browser) (w : World B) (entries : list (gmap string string)) :
  Forall well_formed_entry entries ->
  exists results,
    outcome_of B (EnterText.bulk_enter_text entries) w = Ok results
    /\ length results = length entries
    /\ forall i entry,
        entries !! i = Some entry ->
        exists selector text_to_enter result,
          entry !! "query_selector" = Some selector
          /\ entry !! "text" = Some text_to_enter
          /\ outcome_of B (EnterText.entertext
                             {| EnterText.query_selector := selector;
                                EnterText.text := text_to_enter |})
               (world_after B (EnterText.bulk_enter_text (take i entries)) w)
             = Ok result
          /\ results !! i = Some (entry_result selector result).
Proof.
  intros Hentries. exact (loop_in_order B entries Hentries [] w).
Qed.

Lemma bulk_enter_text_in_order_witness :
  let entries : list (gmap string string) :=
    [ {[ "query_selector" := "#missing"; "text" := "bob" ]};
      {[ "query_selector" := "#name"; "text" := "alice" ]} ] in
  outcome_of (Fixture.browser Fixture.page) (EnterText.bulk_enter_text entries) tt
    = Ok [ entry_result "#missing" (selector_not_found "#missing");
           entry_result "#name" (text_set "#name" "alice") ]
  /\ exists results,
      outcome_of (Fixture.browser Fixture.page) (EnterText.bulk_enter_text entries) tt
        = Ok results
      /\ length results = length entries
      /\ forall i entry,
          entries !! i = Some entry ->
          exists selector text_to_enter result,
            entry !! "query_selector" = Some selector
            /\ entry !! "text" = Some text_to_enter
            /\ outcome_of (Fixture.browser Fixture.page)
                 (EnterText.entertext
                    {| EnterText.query_selector := selector;
                       EnterText.text := text_to_enter |})
                 (world_after (Fixture.browser Fixture.page)
                    (EnterText.bulk_enter_text (take i entries)) tt)
               = Ok result
            /\ results !! i = Some (entry_result selector result).
Proof.
  cbn zeta. split.
  - vm_compute. reflexivity.
  - apply (bulk_enter_text_in_order (Fixture.browser Fixture.page) tt).
    repeat constructor; vm_compute; eauto.
Defined.

(** * Further properties *)

(** ** Batches: composition, malformed entries, missing session *)

Section BatchMore.
Context (B : Browser).
Import EnterText.

(** A loop over a concatenation is the loop over the first part followed
    by the loop over the second. *)
Lemma run_for_each_app {A S} (xs ys : list A) (f : A -> S -> prog S) :
  forall (acc : S) (w : World B),
    run B (for_each (xs ++ ys) f acc) w =
      match run B (for_each xs f acc) w with
      | (tr, Ok acc', w1) =>
          let '(tr2, res, w2) := run B (for_each ys f acc') w1 in
          (tr ++ tr2, res, w2)
      | (tr, Raise e, w1) => (tr, Raise e, w1)
      end.
Proof.
  induction xs as [| x xs IH]; intros acc w.
  - cbn. destruct (run B (for_each ys f acc) w) as [[tr res] w1]. reflexivity.
  - change ((x :: xs) ++ ys) with (x :: (xs ++ ys)).
    rewrite !run_for_each_cons.
    destruct (run B (f x acc) w) as [[tr [acc' | e]] w1]; [| reflexivity].
    rewrite IH.
    destruct (run B (for_each xs f acc') w1) as [[tr1 [acc'' | e]] w2];
      [| reflexivity].
    destruct (run B (for_each ys f acc'') w2) as [[tr2 res] w3].
    rewrite app_assoc. reflexivity.
Qed.

(** The results gathered so far are only ever extended. *)
Lemma step_extends (entry : gmap string string)
    (acc : list (gmap string string)) (w : World B) :
  run B (bulk_enter_text_step entry acc) w =
    let '(tr, res, w1) := run B (bulk_enter_text_step entry []) w in
    (tr, match res with Ok new => Ok (acc ++ new) | Raise e => Raise e end, w1).
Proof.
  unfold bulk_enter_text_step, dict_getitem.
  destruct (entry !! "query_selector") as [selector |]; [| reflexivity].
  destruct (entry !! "text") as [text_to_enter |]; [| reflexivity].
  cbn -[entertext].
  change (entertext ?entry ≫= ?f) with (bind (entertext entry) f).
  rewrite !run_bind.
  destruct (run B (entertext _) w) as [[tr [result | e]] w1]; reflexivity.
Qed.

Lemma loop_extends (entries : list (gmap string string)) :
  forall (acc : list (gmap string string)) (w : World B),
    run B (for_each entries bulk_enter_text_step acc) w =
      let '(tr, res, w1) := run B (for_each entries bulk_enter_text_step []) w in
      (tr, match res with Ok new => Ok (acc ++ new) | Raise e => Raise e end, w1).
Proof.
  induction entries as [| entry entries IH]; intros acc w.
  - cbn. rewrite app_nil_r. reflexivity.
  - rewrite !run_for_each_cons. rewrite step_extends.
    destruct (run B (bulk_enter_text_step entry []) w) as [[tr [new | e]] w1];
      [| reflexivity].
    rewrite (IH (acc ++ new)), (IH new).
    destruct (run B (for_each entries bulk_enter_text_step []) w1)
      as [[tr2 [new' | e]] w2]; [| reflexivity].
    rewrite app_assoc. reflexivity.
Qed.

(** A batch whose first entry carries both keys: that entry is handed to
    [entertext], then the rest of the batch runs. *)
Lemma bulk_cons (entry : gmap string string) (rest : list (gmap string string))
    (selector text_to_enter : string) (w : World B) :
  entry !! "query_selector" = Some selector ->
  entry !! "text" = Some text_to_enter ->
  run B (bulk_enter_text (entry :: rest)) w =
    match run B (entertext {| query_selector := selector;
                              text := text_to_enter |}) w with
    | (tr, Ok result, w1) =>
        let '(tr2, res, w2) := run B (bulk_enter_text rest) w1 in
        (tr ++ tr2,
         match res with
         | Ok results => Ok (entry_result selector result :: results)
         | Raise e => Raise e
         end,
         w2)
    | (tr, Raise e, w1) => (tr, Raise e, w1)
    end.
Proof.
  intros Hselector Htext. unfold bulk_enter_text.
  rewrite run_for_each_cons.
  unfold bulk_enter_text_step at 1, dict_getitem. rewrite Hselector, Htext.
  cbn -[entertext for_each].
  change (entertext ?entry ≫= ?f) with (bind (entertext entry) f).
  rewrite run_bind.
  destruct (run B (entertext _) w) as [[tr [result | e]] w1]; [| reflexivity].
  cbn -[for_each]. rewrite loop_extends.
  destruct (run B (for_each rest bulk_enter_text_step []) w1)
    as [[tr2 [results | e]] w2]; rewrite app_nil_r; reflexivity.
Qed.

(** A batch whose first entry misses a key raises at once. *)
Lemma bulk_malformed_head (entry : gmap string string)
    (rest : list (gmap string string)) (key : string) (w : World B) :
  missing_key entry = Some key ->
  run B (bulk_enter_text (entry :: rest)) w = ([], Raise (KeyError key), w).
Proof.
  unfold missing_key, bulk_enter_text. intros Hkey.
  rewrite run_for_each_cons.
  unfold bulk_enter_text_step, dict_getitem.
  destruct (entry !! "query_selector") as [selector |];
    [destruct (entry !! "text") as [text_to_enter |] |];
    try discriminate; injection Hkey as <-; reflexivity.
Qed.

End BatchMore.

(** X1.  A batch is the sequence of its parts: running [xs ++ ys] leaves
    the log of [xs] followed by the log of [ys] run from the state [xs]
    left, and returns the results of [xs] followed by those of [ys].  If
    [xs] raises, [ys] is not started. *)
Theorem bulk_enter_text_app
    (B : Browser) (w : World B) (xs ys : list (gmap string string)) :
  run B (EnterText.bulk_enter_text (xs ++ ys)) w =
    match run B (EnterText.bulk_enter_text xs) w with
    | (tr1, Ok results1, w1) =>
        let '(tr2, res, w2) := run B (EnterText.bulk_enter_text ys) w1 in
        (tr1 ++ tr2,
         match res with
         | Ok results2 => Ok (results1 ++ results2)
         | Raise e => Raise e
         end,
         w2)
    | (tr1, Raise e, w1) => (tr1, Raise e, w1)
    end.
Proof.
  unfold EnterText.bulk_enter_text. rewrite run_for_each_app.
  destruct (run B (EnterText.for_each xs EnterText.bulk_enter_text_step []) w)
    as [[tr1 [results1 | e]] w1]; [| reflexivity].
  rewrite loop_extends.
  destruct (run B (EnterText.for_each ys EnterText.bulk_enter_text_step []) w1)
    as [[tr2 [results2 | e]] w2]; reflexivity.
Qed.

(** X2.  When the entries before a malformed one all carry both keys, the
    batch attempts exactly those, then raises [KeyError] for the first key
    the malformed entry misses, whose message is that key between quotes
    as [repr] writes it: no result list is returned and the entries after
    it are never attempted. *)
Theorem bulk_enter_text_malformed
    (B : Browser) (w : World B)
    (good rest : list (gmap string string)) (bad : gmap string string)
    (key : string) :
  Forall well_formed_entry good ->
  missing_key bad = Some key ->
  run B (EnterText.bulk_enter_text (good ++ bad :: rest)) w
    = (trace_of B (EnterText.bulk_enter_text good) w,
       Raise (KeyError key),
       world_after B (EnterText.bulk_enter_text good) w).
Proof.
  intros Hgood Hbad.
  destruct (loop_in_order B good Hgood [] w) as (results & Hout & _).
  unfold trace_of, world_after, outcome_of, EnterText.bulk_enter_text in *.
  rewrite run_for_each_app.
  destruct (run B (EnterText.for_each good EnterText.bulk_enter_text_step []) w)
    as [[tr res] w1].
  cbn in Hout. subst res.
  pose proof (bulk_malformed_head B bad rest key w1 Hbad) as Hhead.
  unfold EnterText.bulk_enter_text in Hhead. rewrite loop_extends, Hhead.
  cbn. rewrite app_nil_r. reflexivity.
Qed.

Lemma bulk_enter_text_malformed_witness :
  run (Fixture.browser Fixture.page)
    (EnterText.bulk_enter_text
       ([ {[ "query_selector" := "#name"; "text" := "alice" ]} ]
          ++ {[ "query_selector" := "#go" ]}
          :: [ {[ "query_selector" := "#name"; "text" := "bob" ]} ])) tt
  = (trace_of (Fixture.browser Fixture.page)
       (EnterText.bulk_enter_text
          [ {[ "query_selector" := "#name"; "text" := "alice" ]} ]) tt,
     Raise (Raised "KeyError" "'text'"),
     world_after (Fixture.browser Fixture.page)
       (EnterText.bulk_enter_text
          [ {[ "query_selector" := "#name"; "text" := "alice" ]} ]) tt).
Proof.
  apply (bulk_enter_text_malformed (Fixture.browser Fixture.page) tt
           [ {[ "query_selector" := "#name"; "text" := "alice" ]} ]
           [ {[ "query_selector" := "#name"; "text" := "bob" ]} ]
           {[ "query_selector" := "#go" ]} "text").
  - repeat constructor; vm_compute; eauto.
  - reflexivity.
Defined.

(** X3.  On a browser that never has a page open, a batch of entries that
    carry both keys does not raise: it asks for the current page once per
    entry and nothing else, and returns, entry by entry, the selector with
    the string "Error: No active page found. OpenURL command opens a new
    page.". *)
Theorem bulk_enter_text_without_session
    (B : Browser) (entries : list (gmap string string)) :
  (forall w, (respond_collab B GetCurrentPage w).1 = None) ->
  Forall well_formed_entry entries ->
  forall w,
    (run B (EnterText.bulk_enter_text entries) w).1
      = (map (fun _ => Collab GetCurrentPage None) entries,
         Ok (map (fun entry =>
                    entry_result (selector_of entry) ("Error: " ^^ no_active_page))
                 entries)).
Proof.
  intros Hnone Hentries.
  induction Hentries
    as [| entry entries [[selector Hselector] [text_to_enter Htext]] _ IH];
    intros w.
  - reflexivity.
  - rewrite (bulk_cons B entry entries selector text_to_enter w Hselector Htext).
    pose proof (entertext_unfolded B w selector text_to_enter) as Hentry.
    specialize (Hnone w).
    destruct (respond_collab B GetCurrentPage w) as [page w0].
    cbn in Hnone. subst page.
    destruct (run B (EnterText.entertext _) w) as [[tr res] w1].
    cbn in Hentry. injection Hentry as -> ->.
    specialize (IH w1).
    destruct (run B (EnterText.bulk_enter_text entries) w1) as [[tr2 res2] w2].
    cbn in IH. injection IH as -> ->.
    cbn [map fst snd app].
    replace (selector_of entry) with selector
      by (unfold selector_of; rewrite Hselector; reflexivity).
    reflexivity.
Qed.

Lemma bulk_enter_text_without_session_witness :
  let entries : list (gmap string string) :=
    [ {[ "query_selector" := "#name"; "text" := "alice" ]};
      {[ "query_selector" := "#go"; "text" := "bob" ]} ] in
  (run (Fixture.browser Fixture.no_session)
     (EnterText.bulk_enter_text entries) tt).1
  = (map (fun _ => Collab GetCurrentPage None) entries,
     Ok (map (fun entry =>
                entry_result (selector_of entry) ("Error: " ^^ no_active_page))
             entries)).
Proof.
  cbn zeta.
  apply (bulk_enter_text_without_session (Fixture.browser Fixture.no_session)).
  - intros []. reflexivity.
  - repeat constructor; vm_compute; eauto.
Defined.

(** The log of one [entertext] holds exactly one session lookup. *)
Lemma entertext_one_lookup (B : Browser) (w : World B)
    (selector text_to_enter : string) :
  length (List.filter page_lookup
            (trace_of B (EnterText.entertext
                           {| EnterText.query_selector := selector;
                              EnterText.text := text_to_enter |}) w))
    = 1.
Proof.
  unfold trace_of.
  pose proof (entertext_unfolded B w selector text_to_enter) as Hentry.
  destruct (respond_collab B GetCurrentPage w) as [[page|] w1].
  - destruct (respond_collab B (HighlightElement selector true) w1) as [u w2].
    destruct Hentry as (log & s & Hrun & ->). cbn [fst].
    destruct (do_entertext_log B w2 page selector text_to_enter
                EnterText.use_keyboard_fill_default)
      as (log' & s' & Hrun' & Hlog).
    rewrite Hrun' in Hrun. injection Hrun as <- <-.
    unfold EnterText.use_keyboard_fill_default in Hlog.
    invert_logs; reflexivity.
  - rewrite Hentry. reflexivity.
Qed.

(** X4.  A batch of entries that carry both keys looks the current page
    up once per entry: its log holds as many session lookups as there are
    entries. *)
Theorem bulk_enter_text_lookups
    (B : Browser) (entries : list (gmap string string)) :
  Forall well_formed_entry entries ->
  forall w,
    length (List.filter page_lookup
              (trace_of B (EnterText.bulk_enter_text entries) w))
      = length entries.
Proof.
  intros Hentries.
  induction Hentries
    as [| entry entries [[selector Hselector] [text_to_enter Htext]] _ IH];
    intros w.
  - reflexivity.
  - unfold trace_of in *.
    rewrite (bulk_cons B entry entries selector text_to_enter w Hselector Htext).
    pose proof (entertext_one_lookup B w selector text_to_enter) as Hone.
    destruct (entertext_returns B w selector text_to_enter) as [result Hresult].
    unfold trace_of, outcome_of in Hone, Hresult.
    destruct (run B (EnterText.entertext _) w) as [[tr res] w1].
    cbn in Hone, Hresult. subst res.
    specialize (IH w1).
    destruct (run B (EnterText.bulk_enter_text entries) w1) as [[tr2 res2] w2].
    cbn in *. rewrite List.filter_app, length_app, Hone, IH. reflexivity.
Qed.

Lemma bulk_enter_text_lookups_witness :
  length (List.filter page_lookup
            (trace_of (Fixture.browser Fixture.page)
               (EnterText.bulk_enter_text
                  [ {[ "query_selector" := "#missing"; "text" := "bob" ]};
                    {[ "query_selector" := "#name"; "text" := "alice" ]} ]) tt))
  = 2.
Proof.
  apply (bulk_enter_text_lookups (Fixture.browser Fixture.page)
           [ {[ "query_selector" := "#missing"; "text" := "bob" ]};
             {[ "query_selector" := "#name"; "text" := "alice" ]} ]).
  repeat constructor; vm_compute; eauto.
Defined.

(** ** The pipelines: what they call and how they end *)

(** As [read_call], for an entry whose call is not known in advance. *)
Ltac read_entry H :=
  match type of H with
  | Called ?o1 ?r1 = Called ?o2 ?r2 =>
      let E := fresh "E" in
      pose proof (same_op _ _ _ _ H) as E;
      first [ subst o2 | subst o1 | discriminate E
            | injection E; intros; subst | idtac ];
      try clear E;
      apply same_call in H;
      first [ discriminate H | injection H; clear H; intros; subst | subst ]
  end.

Ltac read_entries :=
  repeat match goal with
    | H : In _ (pause _) |- _ => apply in_pause in H
    | H : In _ (_ ++ _) |- _ => apply in_app_or in H; destruct H as [H | H]
    | H : In _ (_ :: _) |- _ => destruct H as [H | H]
    | H : In _ [] |- _ => destruct H
    | H : _ = _ \/ _ |- _ => destruct H as [H | H]
    | H : False |- _ => destruct H
    | H : Called _ _ = Collab _ _ |- _ => discriminate H
    | H : Collab _ _ = Called _ _ |- _ => discriminate H
    | H : Called _ _ = Called _ _ |- _ => read_entry H
    end.

(** X5.  With [use_keyboard_fill] set, [do_entertext] evaluates no script
    at all.  It types at most twice: the text with a delay of 2 ms and,
    only if that went through, a single space; and it types the text only
    after the query found an element and the focus on it succeeded. *)
Theorem keyboard_fill_types
    (B : Browser) (w : World B) (page : Page) (selector text_to_enter : string) :
  let log := trace_of B (EnterText.do_entertext page selector text_to_enter true) w in
  Forall (fun ev => evaluation ev = false) log
  /\ (List.filter keystroke log = []
      \/ (exists r,
            List.filter keystroke log
            = [Called (KeyboardType page text_to_enter (Some 2%Z)) r])
      \/ (exists r,
            List.filter keystroke log
            = [Called (KeyboardType page text_to_enter (Some 2%Z)) (Ok tt);
               Called (KeyboardType page " " None) r]))
  /\ (forall r,
        In (Called (KeyboardType page text_to_enter (Some 2%Z)) r) log ->
        exists elem,
          In (Called (PageQuerySelector page selector) (Ok (Some elem))) log
          /\ In (Called (Focus elem) (Ok tt)) log).
Proof.
  unfold trace_of. cbn zeta.
  destruct (do_entertext_log B w page selector text_to_enter true)
    as (log & s & -> & Hlog).
  cbn [fst]. invert_logs; cbn.
  all: split; [repeat first [apply List.Forall_nil | apply List.Forall_cons];
               reflexivity |].
  all: split; [eauto 6 |].
  all: intros r' Hin; read_entries; try discriminate.
  all: eexists; split; [left; reflexivity | right; left; reflexivity].
Qed.

(** X6.  [do_entertext] returns the success string exactly when the query
    found an element and no call raised.  It stops at the first call that
    raises: that call is the last entry of the log and the string returned
    carries its message.  When the query finds nothing, it is the only
    call made. *)
Theorem do_entertext_outcome
    (B : Browser) (w : World B) (page : Page) (selector text_to_enter : string)
    (use_keyboard_fill : bool) :
  let log :=
    trace_of B (EnterText.do_entertext page selector text_to_enter use_keyboard_fill) w in
  let outcome :=
    outcome_of B (EnterText.do_entertext page selector text_to_enter use_keyboard_fill) w in
  (outcome = Ok (text_set selector text_to_enter) <->
     (exists elem, In (Called (PageQuerySelector page selector) (Ok (Some elem))) log)
     /\ existsb call_raised log = false)
  /\ (forall o e,
        In (Called o (Raise e)) log ->
        outcome = Ok (entry_failed selector e)
        /\ List.last log (Collab GetCurrentPage None) = Called o (Raise e))
  /\ (In (Called (PageQuerySelector page selector) (Ok None)) log ->
      outcome = Ok (selector_not_found selector)
      /\ log = [Called (PageQuerySelector page selector) (Ok None)]).
Proof.
  unfold trace_of, outcome_of. cbn zeta.
  destruct (do_entertext_log B w page selector text_to_enter use_keyboard_fill)
    as (log & s & -> & Hlog).
  cbn [fst snd].
  assert (Hfailed : forall e, Ok (entry_failed selector e)
                              <> Ok (text_set selector text_to_enter)).
  { intros e. unfold entry_failed, text_set. cbn. discriminate. }
  assert (Hnone : Ok (selector_not_found selector)
                  <> Ok (text_set selector text_to_enter)).
  { unfold selector_not_found, text_set. cbn. discriminate. }
  destruct use_keyboard_fill; invert_logs; cbn.
  all: split; [| split].
  all: match goal with
       | |- _ <-> _ =>
           split;
           [ intros Hout;
             first [ exfalso; first [exact (Hfailed _ Hout) | exact (Hnone Hout)]
                   | split; [eexists; left; reflexivity | reflexivity] ]
           | intros [[elem' Hin] Hraised];
             first [ discriminate Hraised
                   | read_entries; discriminate
                   | reflexivity ] ]
       | |- forall o e, _ =>
           intros o e' Hin; read_entries; try discriminate; split; reflexivity
       | |- _ -> _ =>
           intros Hin; read_entries; try discriminate; split; reflexivity
       end.
Qed.

Lemma keyboard_fill_types_witness :
  exists elem,
    In (Called (PageQuerySelector 0 "#name") (Ok (Some elem)))
       (trace_of (Fixture.browser Fixture.page)
          (EnterText.do_entertext 0 "#name" "alice" true) tt)
    /\ In (Called (Focus elem) (Ok tt))
          (trace_of (Fixture.browser Fixture.page)
             (EnterText.do_entertext 0 "#name" "alice" true) tt).
Proof.
  destruct (keyboard_fill_types (Fixture.browser Fixture.page) tt 0 "#name" "alice")
    as (_ & _ & Htyped).
  apply (Htyped (Ok tt)). vm_compute. do 2 right. left. reflexivity.
Defined.

Lemma do_entertext_outcome_witness :
  outcome_of (Fixture.browser Fixture.broken_page)
    (EnterText.do_entertext 0 "#name" "alice" false) tt
  = Ok (entry_failed "#name" (PlaywrightError "Execution context was destroyed"))
  /\ outcome_of (Fixture.browser Fixture.page)
       (EnterText.do_entertext 0 "#missing" "alice" false) tt
     = Ok (selector_not_found "#missing").
Proof.
  split.
  - destruct (do_entertext_outcome (Fixture.browser Fixture.broken_page) tt
                0 "#name" "alice" false) as (_ & Hraise & _).
    apply (Hraise (fill_script 0 "#name" "alice")
             (PlaywrightError "Execution context was destroyed")).
    vm_compute. right. left. reflexivity.
  - destruct (do_entertext_outcome (Fixture.browser Fixture.page) tt
                0 "#missing" "alice" false) as (_ & _ & Hnone).
    apply Hnone. vm_compute. left. reflexivity.
Defined.

(** X7.  [do_click] returns its failure string exactly when its log holds
    a fatal entry: an attached-wait that produced no element, or a raising
    call other than the two soft waits and the click script.  Otherwise it
    returns one of its two success strings. *)
Theorem do_click_outcome
    (B : Browser) (w : World B)
    (page : Page) (selector : string) (wait_before_execution : Q) :
  let log := trace_of B (Click.do_click page selector wait_before_execution) w in
  let outcome := outcome_of B (Click.do_click page selector wait_before_execution) w in
  (outcome = Ok (click_failed selector) <-> existsb fatal log = true)
  /\ (existsb fatal log = false ->
      outcome = Ok (clicked selector)
      \/ exists v, outcome = Ok (option_selected v)).
Proof.
  unfold trace_of, outcome_of. cbn zeta.
  destruct (do_click_log B w page selector wait_before_execution)
    as (log & s & -> & Hlog).
  cbn [fst snd]. rewrite existsb_app.
  assert (Hpause : existsb fatal (pause wait_before_execution) = false).
  { unfold pause. destruct (Qle_bool wait_before_execution 0); reflexivity. }
  rewrite Hpause. cbn [orb].
  assert (Hclicked : Ok (clicked selector) <> Ok (click_failed selector)).
  { unfold clicked, click_failed. cbn. discriminate. }
  assert (Hselected : forall v, Ok (option_selected v) <> Ok (click_failed selector)).
  { intros v. unfold option_selected, click_failed. cbn. discriminate. }
  invert_logs; cbn.
  all: try match goal with H : found _ = false |- _ => rewrite H; cbn end.
  all: split;
    [ split; intros Hout;
      first [ reflexivity
            | discriminate Hout
            | exfalso; first [exact (Hclicked Hout) | exact (Hselected _ Hout)] ]
    | intros Hfatal; first [discriminate Hfatal | eauto] ].
Qed.

Lemma do_click_outcome_witness :
  outcome_of (Fixture.browser Fixture.hidden_page) (Click.do_click 0 "#ok" 0) tt
    = Ok (clicked "#ok")
  \/ exists v,
      outcome_of (Fixture.browser Fixture.hidden_page) (Click.do_click 0 "#ok" 0) tt
      = Ok (option_selected v).
Proof.
  apply (do_click_outcome (Fixture.browser Fixture.hidden_page) tt 0 "#ok" 0).
  reflexivity.
Defined.

(** X8.  [do_click] sleeps before its pipeline only for a positive
    [wait_before_execution]: zero and negative values cause no sleep at
    all, a positive value causes exactly one, of that length, as the first
    entry of the log. *)
Theorem do_click_pause
    (B : Browser) (w : World B)
    (page : Page) (selector : string) (wait_before_execution : Q) :
  let log := trace_of B (Click.do_click page selector wait_before_execution) w in
  ((wait_before_execution <= 0)%Q -> List.filter sleep log = [])
  /\ ((0 < wait_before_execution)%Q ->
      exists rest,
        log = Collab (AsyncioSleep wait_before_execution) tt :: rest
        /\ List.filter sleep rest = []).
Proof.
  unfold trace_of. cbn zeta.
  destruct (do_click_log B w page selector wait_before_execution)
    as (log & s & -> & Hlog).
  cbn [fst].
  assert (Hquiet : List.filter sleep log = []).
  { invert_logs; reflexivity. }
  unfold pause. split.
  - intros Hle. apply Qle_bool_iff in Hle. rewrite Hle. exact Hquiet.
  - intros Hlt. destruct (Qle_bool wait_before_execution 0) eqn:Hle.
    + apply Qle_bool_iff in Hle. exfalso. exact (Qlt_not_le _ _ Hlt Hle).
    + eexists. split; [reflexivity | exact Hquiet].
Qed.

Lemma do_click_pause_witness :
  List.filter sleep
    (trace_of (Fixture.browser Fixture.page) (Click.do_click 0 "#ok" (-1)) tt) = []
  /\ exists rest,
      trace_of (Fixture.browser Fixture.page) (Click.do_click 0 "#ok" (1 # 2)) tt
        = Collab (AsyncioSleep (1 # 2)) tt :: rest
      /\ List.filter sleep rest = [].
Proof.
  split.
  - apply (do_click_pause (Fixture.browser Fixture.page) tt 0 "#ok" (-1)).
    discriminate.
  - apply (do_click_pause (Fixture.browser Fixture.page) tt 0 "#ok" (1 # 2)).
    reflexivity.
Defined.

(** X9.  [do_click] never uses the native click and never types; it sends
    at most one script, and only the click script. *)
Theorem do_click_restraint
    (B : Browser) (w : World B)
    (page : Page) (selector : string) (wait_before_execution : Q) :
  let log := trace_of B (Click.do_click page selector wait_before_execution) w in
  Forall (fun ev => native_click ev = false /\ keystroke ev = false) log
  /\ (List.filter evaluation log = []
      \/ exists r, List.filter evaluation log = [Called (click_script page selector) r]).
Proof.
  unfold trace_of. cbn zeta.
  destruct (do_click_log B w page selector wait_before_execution)
    as (log & s & -> & Hlog).
  cbn [fst]. rewrite List.filter_app.
  assert (Hpause : Forall (fun ev => native_click ev = false /\ keystroke ev = false)
                     (pause wait_before_execution)
                   /\ List.filter evaluation (pause wait_before_execution) = []).
  { unfold pause. destruct (Qle_bool wait_before_execution 0);
      repeat constructor. }
  destruct Hpause as [Hpause ->]. cbn [app].
  split.
  - apply Forall_app. split; [exact Hpause |].
    invert_logs; repeat first [apply List.Forall_nil | apply List.Forall_cons];
      split; reflexivity.
  - invert_logs; cbn; eauto.
Qed.

(** ** The facades *)

Lemma do_click_quiet (B : Browser) (w : World B)
    (page : Page) (selector : string) (wait_before_execution : Q) :
  Forall (fun ev => notification ev = false /\ page_lookup ev = false)
         (trace_of B (Click.do_click page selector wait_before_execution) w).
Proof.
  unfold trace_of.
  destruct (do_click_log B w page selector wait_before_execution)
    as (log & s & -> & Hlog).
  cbn [fst]. apply Forall_app. split.
  - unfold pause. destruct (Qle_bool wait_before_execution 0); repeat constructor.
  - invert_logs; repeat first [apply List.Forall_nil | apply List.Forall_cons];
      split; reflexivity.
Qed.

Lemma do_entertext_quiet (B : Browser) (w : World B)
    (page : Page) (selector text_to_enter : string) (use_keyboard_fill : bool) :
  Forall (fun ev => notification ev = false /\ page_lookup ev = false)
         (trace_of B (EnterText.do_entertext page selector text_to_enter
                        use_keyboard_fill) w).
Proof.
  unfold trace_of.
  destruct (do_entertext_log B w page selector text_to_enter use_keyboard_fill)
    as (log & s & -> & Hlog).
  cbn [fst].
  destruct use_keyboard_fill; invert_logs; cbn;
    repeat first [apply List.Forall_nil | apply List.Forall_cons];
    split; reflexivity.
Qed.

(** X10.  With a page open, [click] and [entertext] each look the page up
    once, highlight the selector, run their pipeline, and end by notifying
    the user of exactly the string they return; nothing in between is a
    notification.  With no page open neither highlights nor notifies: the
    session lookup is their only call, also for [entertext], whose error
    string is thus never shown to the user. *)
Theorem facades_notify_once
    (B : Browser) (w : World B)
    (selector text_to_enter : string) (wait_before_execution : Q) :
  let click_log := trace_of B (Click.click selector wait_before_execution) w in
  let entry :=
    {| EnterText.query_selector := selector; EnterText.text := text_to_enter |} in
  let entry_log := trace_of B (EnterText.entertext entry) w in
  match (respond_collab B GetCurrentPage w).1 with
  | None =>
      click_log = [Collab GetCurrentPage None]
      /\ entry_log = [Collab GetCurrentPage None]
  | Some page =>
      (exists inner s,
          click_log = Collab GetCurrentPage (Some page)
                        :: Collab (HighlightElement selector true) tt
                        :: inner ++ [Collab (NotifyUser s) tt]
          /\ outcome_of B (Click.click selector wait_before_execution) w = Ok s
          /\ Forall (fun ev => notification ev = false /\ page_lookup ev = false)
                    inner)
      /\ (exists inner s,
            entry_log = Collab GetCurrentPage (Some page)
                          :: Collab (HighlightElement selector true) tt
                          :: inner ++ [Collab (NotifyUser s) tt]
            /\ outcome_of B (EnterText.entertext entry) w = Ok s
            /\ Forall (fun ev => notification ev = false /\ page_lookup ev = false)
                      inner)
  end.
Proof.
  cbn zeta. unfold trace_of, outcome_of.
  pose proof (click_unfolded B w selector wait_before_execution) as Hclick.
  pose proof (entertext_unfolded B w selector text_to_enter) as Hentry.
  destruct (respond_collab B GetCurrentPage w) as [[page|] w1]; cbn [fst].
  - destruct (respond_collab B (HighlightElement selector true) w1) as [u w2].
    destruct Hclick as (log & s & Hrun & ->).
    destruct Hentry as (log' & s' & Hrun' & ->).
    split.
    + exists log, s. repeat split.
      pose proof (do_click_quiet B w2 page selector wait_before_execution) as Hq.
      unfold trace_of in Hq. rewrite Hrun in Hq. exact Hq.
    + exists log', s'. repeat split.
      pose proof (do_entertext_quiet B w2 page selector text_to_enter
                    EnterText.use_keyboard_fill_default) as Hq.
      unfold trace_of in Hq. rewrite Hrun' in Hq. exact Hq.
  - rewrite Hclick, Hentry. split; reflexivity.
Qed.

(** X11.  [is_element_present] answers False exactly in the states in
    which [do_entertext], in either mode, reports that the selector was
    not found; and it raises exactly when the query itself raises. *)
Theorem presence_agrees_with_entry
    (B : Browser) (w : World B) (page : Page) (selector text_to_enter : string)
    (use_keyboard_fill : bool) :
  (outcome_of B (Click.is_element_present page selector) w = Ok false
   <-> outcome_of B (EnterText.do_entertext page selector text_to_enter
                       use_keyboard_fill) w
       = Ok (selector_not_found selector))
  /\ (forall e,
        outcome_of B (Click.is_element_present page selector) w = Raise e
        <-> (respond B (PageQuerySelector page selector) w).1 = Raise e).
Proof.
  assert (Hfailed : forall e, Ok (entry_failed selector e)
                              <> Ok (selector_not_found selector)).
  { intros e. unfold entry_failed, selector_not_found. cbn. discriminate. }
  assert (Hset : Ok (text_set selector text_to_enter)
                 <> Ok (selector_not_found selector)).
  { unfold text_set, selector_not_found. cbn. discriminate. }
  unfold outcome_of, Click.is_element_present, EnterText.do_entertext,
    EnterText.custom_fill_element.
  destruct use_keyboard_fill; cbn.
  all: destruct (respond B (PageQuerySelector page selector) w)
         as [[[elem |] | e0] w1]; cbn.
  all: repeat (split_answer; cbn).
  all: split; [split; intros Hout | intros e'; split; intros Hout].
  all: first [ reflexivity | discriminate Hout
             | injection Hout as ->; reflexivity
             | exfalso; first [exact (Hfailed _ Hout) | exact (Hset Hout)] ].
Qed.

Lemma presence_agrees_with_entry_witness :
  outcome_of (Fixture.browser Fixture.page)
    (Click.is_element_present 0 "#missing") tt = Ok false
  /\ outcome_of (Fixture.browser Fixture.page)
       (Click.is_element_present 0 "#name") tt = Ok true.
Proof.
  split.
  - apply (presence_agrees_with_entry (Fixture.browser Fixture.page) tt
             0 "#missing" "alice" false).
    reflexivity.
  - reflexivity.
Defined.

(** ** The two click strategies *)

(** X19.  [perform_javascript_click] never raises: it makes the one
    script evaluation and returns its answer, or None exactly when the
    evaluation raised.  [perform_playwright_click] makes the one native
    click, unforced and bounded by 200 ms, and raises exactly what that
    click raises. *)
Theorem click_strategies_on_failure
    (B : Browser) (w : World B)
    (page : Page) (element : ElementHandle) (selector : string) :
  let script_answer := (respond B (click_script page selector) w).1 in
  let click_answer := (respond B (ElementClick element false 200) w).1 in
  (run B (Click.perform_javascript_click page selector) w).1
    = ([Called (click_script page selector) script_answer],
       Ok (match script_answer with Ok v => Some v | Raise _ => None end))
  /\ (outcome_of B (Click.perform_javascript_click page selector) w = Ok None
      <-> raised script_answer = true)
  /\ (run B (Click.perform_playwright_click element selector) w).1
     = ([Called (ElementClick element false 200) click_answer],
        match click_answer with Ok _ => Ok tt | Raise e => Raise e end).
Proof.
  cbn zeta. unfold outcome_of, Click.perform_javascript_click,
    Click.perform_playwright_click, click_script. cbn.
  destruct (respond B (PageEvaluate page js_click_code (JString selector)) w)
    as [[v | e] w1];
    destruct (respond B (ElementClick element false 200) w) as [[[] | e'] w2];
    cbn; repeat split; intros; try reflexivity; discriminate.
Qed.

Lemma click_strategies_on_failure_witness :
  outcome_of (Fixture.browser Fixture.broken_page)
    (Click.perform_javascript_click 0 "#ok") tt
  = Ok None.
Proof.
  apply (click_strategies_on_failure (Fixture.browser Fixture.broken_page) tt
           0 5 "#ok").
  reflexivity.
Defined.

(** X20.  A positive [wait_before_execution] only puts a sleep in front:
    the run is that sleep followed by the run without a wait, started in
    the state the browser is in after the sleep. *)
Theorem do_click_after_pause
    (B : Browser) (w : World B)
    (page : Page) (selector : string) (wait_before_execution : Q) :
  (0 < wait_before_execution)%Q ->
  run B (Click.do_click page selector wait_before_execution) w
    = let '(tr, res, w2) :=
        run B (Click.do_click page selector 0)
          (respond_collab B (AsyncioSleep wait_before_execution) w).2 in
      (Collab (AsyncioSleep wait_before_execution) tt :: tr, res, w2).
Proof.
  intros Hlt. unfold Click.do_click.
  destruct (Qle_bool wait_before_execution 0) eqn:Hle.
  - apply Qle_bool_iff in Hle. exfalso. exact (Qlt_not_le _ _ Hlt Hle).
  - change (Qle_bool 0 0) with true.
    change (?p ;; ?q) with (bind p (fun _ => q)).
    rewrite !run_bind. cbn [run await_collab mret prog_ret].
    destruct (respond_collab B (AsyncioSleep wait_before_execution) w) as [[] w1].
    cbn [snd app].
    match goal with
    | |- context [run B ?p w1] => destruct (run B p w1) as [[tr res] w2]
    end.
    reflexivity.
Qed.

Lemma do_click_after_pause_witness :
  run (Fixture.browser Fixture.page) (Click.do_click 0 "#ok" (1 # 2)) tt
  = let '(tr, res, w2) :=
      run (Fixture.browser Fixture.page) (Click.do_click 0 "#ok" 0)
        (respond_collab (Fixture.browser Fixture.page) (AsyncioSleep (1 # 2)) tt).2 in
    (Collab (AsyncioSleep (1 # 2)) tt :: tr, res, w2).
Proof.
  apply (do_click_after_pause (Fixture.browser Fixture.page) tt 0 "#ok" (1 # 2)).
  reflexivity.
Defined.

(** ** The scripts *)

(** The click script rewrites values and targets only. *)
Lemma click_code_keeps_structure (selector : string) (doc : InPage.Document) (m : nat) :
  let after := InPage.node (InPage.click_code selector doc).2 m in
  InPage.tagName after = InPage.tagName (InPage.node doc m)
  /\ InPage.text after = InPage.text (InPage.node doc m)
  /\ InPage.parentElement after = InPage.parentElement (InPage.node doc m).
Proof.
  cbn zeta. unfold InPage.click_code.
  destruct (InPage.querySelector doc selector) as [[n |] | e];
    [| repeat split ..].
  destruct (String.eqb _ "option");
    [destruct (InPage.parentElement (InPage.node doc n))
    | destruct (String.eqb _ "a")];
    cbn; try destruct (Nat.eqb m _); repeat split.
Qed.

(** X12.  What the click script itself does, on any document and for any
    selector.  It clicks at most once, and then the node its own lookup
    of the selector returned, never an option.  It writes at most one
    property: the value of the parent of an option, or the target of a
    link.  It dispatches an event only for an option.  When its lookup
    finds nothing or throws, it clicks, writes and dispatches nothing.
    It leaves the tag name, the text and the parent of every node as they
    were. *)
Theorem click_code_effects (selector : string) (doc : InPage.Document) :
  let effects := (InPage.click_code selector doc).1.1 in
  (forall m,
      let after := InPage.node (InPage.click_code selector doc).2 m in
      InPage.tagName after = InPage.tagName (InPage.node doc m)
      /\ InPage.text after = InPage.text (InPage.node doc m)
      /\ InPage.parentElement after = InPage.parentElement (InPage.node doc m))
  /\ (List.filter clicks effects = []
   \/ exists n,
       List.filter clicks effects = [InPage.NativeClick n]
       /\ InPage.querySelector doc selector = Ok (Some n)
       /\ InPage.toLowerCase (InPage.tagName (InPage.node doc n)) <> "option")
  /\ (List.filter writes effects = []
      \/ (exists n parent,
            List.filter writes effects
            = [InPage.SetProperty parent "value" (InPage.value (InPage.node doc n))]
            /\ InPage.querySelector doc selector = Ok (Some n)
            /\ InPage.toLowerCase (InPage.tagName (InPage.node doc n)) = "option"
            /\ InPage.parentElement (InPage.node doc n) = Some parent)
      \/ (exists n,
            List.filter writes effects = [InPage.SetProperty n "target" "_self"]
            /\ InPage.querySelector doc selector = Ok (Some n)
            /\ InPage.toLowerCase (InPage.tagName (InPage.node doc n)) = "a"))
  /\ (List.filter dispatches effects <> [] ->
      exists n,
        InPage.querySelector doc selector = Ok (Some n)
        /\ InPage.toLowerCase (InPage.tagName (InPage.node doc n)) = "option")
  /\ (found (InPage.querySelector doc selector) = false ->
      List.filter clicks effects = []
      /\ List.filter writes effects = []
      /\ List.filter dispatches effects = []).
Proof.
  cbn zeta. split; [apply click_code_keeps_structure |].
  unfold InPage.click_code.
  destruct (InPage.querySelector doc selector) as [[n |] | e] eqn:Hquery.
  - destruct (String.eqb (InPage.toLowerCase (InPage.tagName (InPage.node doc n)))
                "option") eqn:Hoption.
    + apply String.eqb_eq in Hoption.
      destruct (InPage.parentElement (InPage.node doc n)) as [parent |] eqn:Hparent;
        cbn [fst snd]; (split; [| split; [| split]]).
      * left. reflexivity.
      * right. left. exists n, parent. cbn. auto.
      * intros _. exists n. auto.
      * discriminate.
      * left. reflexivity.
      * left. reflexivity.
      * intros Hd. exfalso. apply Hd. reflexivity.
      * discriminate.
    + apply String.eqb_neq in Hoption.
      destruct (String.eqb (InPage.toLowerCase (InPage.tagName (InPage.node doc n)))
                  "a") eqn:Hlink;
        cbn [fst snd]; (split; [| split; [| split]]).
      * right. exists n. cbn. auto.
      * right. right. exists n. apply String.eqb_eq in Hlink. cbn. auto.
      * intros Hd. exfalso. apply Hd. reflexivity.
      * discriminate.
      * right. exists n. cbn. auto.
      * left. reflexivity.
      * intros Hd. exfalso. apply Hd. reflexivity.
      * discriminate.
  - cbn [fst snd]. split; [| split; [| split]].
    + left. reflexivity.
    + left. reflexivity.
    + intros Hd. exfalso. apply Hd. reflexivity.
    + intros _. repeat split.
  - cbn [fst snd]. split; [| split; [| split]].
    + left. reflexivity.
    + left. reflexivity.
    + intros Hd. exfalso. apply Hd. reflexivity.
    + intros _. repeat split.
Qed.

Lemma click_code_effects_witness :
  (exists n,
      InPage.querySelector Fixture.form "#de" = Ok (Some n)
      /\ InPage.toLowerCase (InPage.tagName (InPage.node Fixture.form n)) = "option")
  /\ List.filter clicks (InPage.click_code "#missing" Fixture.form).1.1 = []
  /\ List.filter writes (InPage.click_code "#missing" Fixture.form).1.1 = []
  /\ List.filter dispatches (InPage.click_code "#missing" Fixture.form).1.1 = [].
Proof.
  split.
  - destruct (click_code_effects "#de" Fixture.form) as (_ & _ & _ & Hdispatch & _).
    apply Hdispatch. discriminate.
  - destruct (click_code_effects "#missing" Fixture.form) as (_ & _ & _ & _ & Hnone).
    apply Hnone. reflexivity.
Defined.

(** X13.  Run on an option that has a parent, the click script does not
    click: it writes the value of the option to the value of the parent,
    dispatches a bubbling change event on the parent, and returns a
    message that names the text of the option.  On an option without a
    parent it throws before doing anything. *)
Theorem click_code_on_option
    (selector : string) (doc : InPage.Document) (n : nat) :
  InPage.querySelector doc selector = Ok (Some n) ->
  InPage.toLowerCase (InPage.tagName (InPage.node doc n)) = "option" ->
  match InPage.parentElement (InPage.node doc n) with
  | Some parent =>
      exists doc',
        InPage.click_code selector doc
          = ([InPage.SetProperty parent "value" (InPage.value (InPage.node doc n));
              InPage.DispatchEvent parent "change" true;
              InPage.ConsoleLog ["Select menu option";
                                 InPage.text (InPage.node doc n); "selected"]],
             Ok (JString ("Select menu option: "
                            ^^ InPage.text (InPage.node doc n) ^^ " selected")),
             doc')
        /\ InPage.value (InPage.node doc' parent)
           = InPage.value (InPage.node doc n)
        /\ forall m, m <> parent -> InPage.node doc' m = InPage.node doc m
  | None =>
      exists e, InPage.click_code selector doc = ([], Raise e, doc)
  end.
Proof.
  intros Hquery Htag. unfold InPage.click_code. rewrite Hquery, Htag. cbn.
  destruct (InPage.parentElement (InPage.node doc n)) as [parent |].
  - eexists. split; [reflexivity | split].
    + cbn. rewrite Nat.eqb_refl. reflexivity.
    + intros m Hm. cbn. apply Nat.eqb_neq in Hm. rewrite Hm. reflexivity.
  - eexists. reflexivity.
Qed.

Lemma click_code_on_option_witness :
  exists doc',
    InPage.click_code "#de" Fixture.form
      = ([InPage.SetProperty 4 "value" "de";
          InPage.DispatchEvent 4 "change" true;
          InPage.ConsoleLog ["Select menu option"; "Deutsch"; "selected"]],
         Ok (JString "Select menu option: Deutsch selected"),
         doc')
    /\ InPage.value (InPage.node doc' 4) = "de"
    /\ forall m, m <> 4 -> InPage.node doc' m = InPage.node Fixture.form m.
Proof.
  apply (click_code_on_option "#de" Fixture.form 3); reflexivity.
Defined.

(** The fill script, spelled out by what its lookup gives. *)
Lemma fill_code_cases (selector text_to_enter : string) (doc : InPage.Document) :
  InPage.fill_code
    {[ "selector" := selector; "text_to_enter" := text_to_enter ]} doc
  = match InPage.querySelector doc selector with
    | Ok (Some n) =>
        ([InPage.SetProperty n "value" text_to_enter], Ok JUndefined,
         InPage.update n (InPage.set_value text_to_enter) doc)
    | Ok None =>
        ([], Raise (InPage.TypeError
                      "Cannot set properties of null (setting 'value')"), doc)
    | Raise e => ([], Raise e, doc)
    end.
Proof.
  unfold InPage.fill_code, InPage.property.
  rewrite lookup_insert_eq. rewrite lookup_insert_ne by discriminate.
  rewrite lookup_singleton_eq. reflexivity.
Qed.

(** X14.  The fill script dispatches no event and clicks nothing, on any
    document and with any parameters.  When the selector resolves to the
    same node before and after a first fill, a second fill goes through
    and the last text wins: the value of the node is the second text and
    every node is as the second fill alone would have left it. *)
Theorem fill_code_last_wins
    (selector first second : string) (doc : InPage.Document) (n : nat) :
  let fill text_to_enter :=
    InPage.fill_code {[ "selector" := selector; "text_to_enter" := text_to_enter ]} in
  (forall inputParams,
      List.filter dispatches (InPage.fill_code inputParams doc).1.1 = []
      /\ List.filter clicks (InPage.fill_code inputParams doc).1.1 = [])
  /\ (InPage.querySelector doc selector = Ok (Some n) ->
      InPage.querySelector (fill first doc).2 selector = Ok (Some n) ->
      (fill second (fill first doc).2).1
        = ([InPage.SetProperty n "value" second], Ok JUndefined)
      /\ InPage.value (InPage.node (fill second (fill first doc).2).2 n) = second
      /\ forall m,
          InPage.node (fill second (fill first doc).2).2 m
          = InPage.node (fill second doc).2 m).
Proof.
  cbn zeta. split.
  - intros inputParams. unfold InPage.fill_code.
    destruct (InPage.querySelector doc _) as [[m |] | e]; split; reflexivity.
  - intros Hbefore. rewrite (fill_code_cases selector first doc), Hbefore.
    cbn [snd]. intros Hafter.
    rewrite (fill_code_cases selector second doc), Hbefore.
    rewrite (fill_code_cases selector second
               (InPage.update n (InPage.set_value first) doc)), Hafter.
    cbn [fst snd]. split; [reflexivity | split].
    + cbn. rewrite Nat.eqb_refl. reflexivity.
    + intros m. cbn. destruct (Nat.eqb m n); reflexivity.
Qed.

Lemma fill_code_last_wins_witness :
  (InPage.fill_code {[ "selector" := "#name"; "text_to_enter" := "bob" ]}
     (InPage.fill_code {[ "selector" := "#name"; "text_to_enter" := "alice" ]}
        Fixture.form).2).1
  = ([InPage.SetProperty 2 "value" "bob"], Ok JUndefined)
  /\ InPage.value
       (InPage.node
          (InPage.fill_code {[ "selector" := "#name"; "text_to_enter" := "bob" ]}
             (InPage.fill_code {[ "selector" := "#name"; "text_to_enter" := "alice" ]}
                Fixture.form).2).2 2)
     = "bob"
  /\ forall m,
      InPage.node
        (InPage.fill_code {[ "selector" := "#name"; "text_to_enter" := "bob" ]}
           (InPage.fill_code {[ "selector" := "#name"; "text_to_enter" := "alice" ]}
              Fixture.form).2).2 m
      = InPage.node
          (InPage.fill_code {[ "selector" := "#name"; "text_to_enter" := "bob" ]}
             Fixture.form).2 m.
Proof.
  apply (fill_code_last_wins "#name" "alice" "bob" Fixture.form 2); reflexivity.
Defined.

(** Where a fill changes what the selector matches, the second fill finds
    nothing: it throws and the first text stays. *)
Example fill_code_selector_moves :
  let fill text_to_enter :=
    InPage.fill_code
      {[ "selector" := "input:placeholder-shown";
         "text_to_enter" := text_to_enter ]} in
  InPage.querySelector Fixture.search_box "input:placeholder-shown" = Ok (Some 1)
  /\ InPage.querySelector (fill "alice" Fixture.search_box).2
       "input:placeholder-shown" = Ok None
  /\ raised (fill "bob" (fill "alice" Fixture.search_box).2).1.2 = true
  /\ InPage.value
       (InPage.node (fill "bob" (fill "alice" Fixture.search_box).2).2 1)
     = "alice".
Proof. cbn zeta. repeat split; vm_compute; reflexivity. Qed.

(** ** Fetching the DOM *)

Section GetDomProperties.
Context {Tree : Type} (H : GetDom.Host Tree) (folder : string).

Abbreviation get_dom := (GetDom.get_dom_with_content_type H folder).

(** Split on every answer of the host that the goal shows. *)
Ltac answers :=
  repeat (match goal with
    | |- context [GetDom.get_current_page H ?x] =>
        destruct (GetDom.get_current_page H x) as [[?page |] ?s]
    | |- context [GetDom.wait_for_non_loading_dom_state H ?p ?t ?x] =>
        destruct (GetDom.wait_for_non_loading_dom_state H p t x) as [[[] | ?e] ?s]
    | |- context [GetDom.do_get_accessibility_info H ?p ?b ?x] =>
        destruct (GetDom.do_get_accessibility_info H p b x) as [[?snapshot | ?e] ?s]
    | |- context [GetDom.evaluate_inner_text H ?p ?x] =>
        destruct (GetDom.evaluate_inner_text H p x) as [[?text | ?e] ?s]
    | |- context [GetDom.write_text H ?p ?t ?x] =>
        destruct (GetDom.write_text H p t x) as [[[] | ?e] ?s]
    | |- context [GetDom.notify_user H ?m ?x] =>
        destruct (GetDom.notify_user H m x) as [[] ?s]
    end; cbn).

(** Unfold the skill and split on every answer of the host. *)
Ltac run_get_dom :=
  unfold GetDom.get_dom_with_content_type, GetDom.bind, GetDom.call, GetDom.tell,
    GetDom.ret, GetDom.raise;
  cbn; answers.

(** X15.  For a content type other than the three supported ones, the
    skill still looks the page up and waits for the DOM to settle before
    it rejects the argument: with a page open and the wait gone through
    it raises [ValueError] naming the content type, having fetched
    nothing and notified nobody; with no page open it raises right after
    the lookup. *)
Theorem unsupported_content_type
    (content_type : string) (s : GetDom.State H) :
  supported content_type = false ->
  match (GetDom.get_current_page H s).1 with
  | None =>
      (get_dom content_type s).1
      = ([GetDom.LookedUp None], Raise (ValueError no_active_page))
  | Some page =>
      exists r,
        (get_dom content_type s).1
        = ([GetDom.LookedUp (Some page); GetDom.Waited page 2000 r],
           match r with
           | Ok _ => Raise (ValueError ("Unsupported content_type: " ^^ content_type))
           | Raise e => Raise e
           end)
  end.
Proof.
  unfold supported. intros Hunsupported.
  apply orb_false_elim in Hunsupported as [Hunsupported Htext].
  apply orb_false_elim in Hunsupported as [Hall Hinput].
  run_get_dom; try reflexivity.
  - rewrite Hall, Hinput, Htext. cbn. exists (Ok tt). reflexivity.
  - exists (Raise e). reflexivity.
Qed.

(** X16.  The user is notified exactly when the skill returns: a run that
    raises holds no notification, and a run that returns ends with the
    one notification it holds, whose message is fixed by the content
    type. *)
Theorem notified_on_return_only
    (content_type : string) (s : GetDom.State H) :
  let log := (get_dom content_type s).1.1 in
  let outcome := (get_dom content_type s).1.2 in
  (raised outcome = true -> List.filter told log = [])
  /\ (raised outcome = false ->
      exists before message,
        log = before ++ [GetDom.Notified message]
        /\ List.filter told before = []
        /\ message
           = if String.eqb content_type "all_fields"
             then "Fetched all the fields in the DOM"
             else if String.eqb content_type "input_fields"
                  then "Fetched only input fields in the DOM"
                  else "Fetched the text content of the DOM").
Proof.
  cbn zeta.
  destruct (String.eqb content_type "all_fields") eqn:Hall;
    [| destruct (String.eqb content_type "input_fields") eqn:Hinput;
       [| destruct (String.eqb content_type "text_only") eqn:Htext]].
  all: run_get_dom; rewrite ?Hall, ?Hinput, ?Htext; cbn; answers.
  all: split;
    [ intros Hr; first [reflexivity | discriminate Hr]
    | intros Hr; try discriminate Hr ].
  all: match goal with
       | |- exists before message, ?a :: ?b :: ?c :: [?n] = _ /\ _ =>
           exists [a; b; c], ltac:(match n with GetDom.Notified ?m => exact m end)
       | |- exists before message, ?a :: ?b :: ?c :: ?d :: [?n] = _ /\ _ =>
           exists [a; b; c; d], ltac:(match n with GetDom.Notified ?m => exact m end)
       end.
  all: repeat split.
Qed.

(** X17.  Asked for [text_only], the skill returns only after it has read
    the inner text, written exactly that text to [text_only_dom.txt] in
    the log folder and notified the user; what it returns is that text.
    If writing the file raises, the exception reaches the caller, the
    text is not returned and the user is not notified.  No snapshot is
    ever taken. *)
Theorem text_only_run (s : GetDom.State H) :
  let log := (get_dom "text_only" s).1.1 in
  let outcome := (get_dom "text_only" s).1.2 in
  let path := GetDom.os_path_join folder "text_only_dom.txt" in
  (forall data,
      outcome = Ok data ->
      exists page text,
        data = GetDom.Str text
        /\ log = [GetDom.LookedUp (Some page);
                  GetDom.Waited page 2000 (Ok tt);
                  GetDom.ReadText page (Ok text);
                  GetDom.Wrote path text (Ok tt);
                  GetDom.Notified "Fetched the text content of the DOM"])
  /\ (forall p text e,
        In (GetDom.Wrote p text (Raise e)) log ->
        outcome = Raise e /\ List.filter told log = [])
  /\ Forall (fun a => match a with GetDom.Snapshot _ _ _ => False | _ => True end)
            log.
Proof.
  cbn zeta. run_get_dom.
  all: split; [intros data Hdata; try discriminate Hdata | split].
  all: try (injection Hdata as <-; eexists _, _; split; reflexivity).
  all: try (repeat first [apply List.Forall_nil | apply List.Forall_cons];
            exact I).
  all: intros p text' e' Hin; cbn in Hin.
  all: repeat match goal with
         | Hin : _ \/ _ |- _ => destruct Hin as [Hin | Hin]
         | Hin : False |- _ => destruct Hin
         | Hin : _ = GetDom.Wrote _ _ _ |- _ =>
             first [discriminate Hin | injection Hin as <- <- <-]
         end.
  all: split; reflexivity.
Qed.

(** X18.  Asked for [all_fields] or [input_fields], the skill returns
    after exactly one snapshot, taken with [only_input_fields] set for
    [input_fields] and cleared for [all_fields], and returns that
    snapshot as it came, [None] included; it reads no text and writes no
    file, and the user is told that the fields were fetched. *)
Theorem fields_run (content_type : string) (s : GetDom.State H) :
  let log := (get_dom content_type s).1.1 in
  let outcome := (get_dom content_type s).1.2 in
  content_type = "all_fields" \/ content_type = "input_fields" ->
  forall data,
    outcome = Ok data ->
    exists page snapshot,
      data = GetDom.of_snapshot snapshot
      /\ log = [GetDom.LookedUp (Some page);
                GetDom.Waited page 2000 (Ok tt);
                GetDom.Snapshot page (String.eqb content_type "input_fields")
                  (Ok snapshot);
                GetDom.Notified
                  (if String.eqb content_type "input_fields"
                   then "Fetched only input fields in the DOM"
                   else "Fetched all the fields in the DOM")].
Proof.
  cbn zeta. intros [-> | ->]; run_get_dom.
  all: intros data Hdata; try discriminate Hdata.
  all: injection Hdata as <-; eexists _, _; split; reflexivity.
Qed.

End GetDomProperties.

Lemma unsupported_content_type_witness :
  exists r,
    (GetDom.get_dom_with_content_type (GetDomFixture.host (Some 0) true)
       "/var/log" "Text_Only" []).1
    = ([GetDom.LookedUp (Some 0); GetDom.Waited 0 2000 r],
       match r with
       | Ok _ => Raise (ValueError ("Unsupported content_type: " ^^ "Text_Only"))
       | Raise e => Raise e
       end).
Proof.
  apply (unsupported_content_type (GetDomFixture.host (Some 0) true)
           "/var/log" "Text_Only" []).
  reflexivity.
Defined.

Lemma notified_on_return_only_witness :
  List.filter told
    (GetDom.get_dom_with_content_type (GetDomFixture.host (Some 0) false)
       "/var/log" "text_only" []).1.1
  = []
  /\ exists before message,
      (GetDom.get_dom_with_content_type (GetDomFixture.host (Some 0) true)
         "/var/log" "input_fields" []).1.1
      = before ++ [GetDom.Notified message]
      /\ List.filter told before = []
      /\ message = "Fetched only input fields in the DOM".
Proof.
  split.
  - apply (notified_on_return_only (GetDomFixture.host (Some 0) false)
             "/var/log" "text_only" []).
    reflexivity.
  - apply (notified_on_return_only (GetDomFixture.host (Some 0) true)
             "/var/log" "input_fields" []).
    reflexivity.
Defined.

Lemma text_only_run_witness :
  (exists page text,
      @GetDom.Str string "Hello" = GetDom.Str text
      /\ (GetDom.get_dom_with_content_type (GetDomFixture.host (Some 0) true)
            "/var/log" "text_only" []).1.1
         = [GetDom.LookedUp (Some page);
            GetDom.Waited page 2000 (Ok tt);
            GetDom.ReadText page (Ok text);
            GetDom.Wrote "/var/log/text_only_dom.txt" text (Ok tt);
            GetDom.Notified "Fetched the text content of the DOM"])
  /\ (GetDom.get_dom_with_content_type (GetDomFixture.host (Some 0) false)
        "/var/log/" "text_only" []).1.2
     = Raise (Raised "PermissionError" "/var/log/text_only_dom.txt").
Proof.
  split.
  - destruct (text_only_run (GetDomFixture.host (Some 0) true) "/var/log" [])
      as (Hreturns & _).
    apply Hreturns. reflexivity.
  - destruct (text_only_run (GetDomFixture.host (Some 0) false) "/var/log/" [])
      as (_ & Hwrite & _).
    apply (Hwrite "/var/log/text_only_dom.txt" "Hello").
    vm_compute. do 3 right. left. reflexivity.
Defined.

Lemma fields_run_witness :
  exists page snapshot,
    @GetDom.PyNone string = GetDom.of_snapshot snapshot
    /\ (GetDom.get_dom_with_content_type (GetDomFixture.host (Some 0) true)
          "/var/log" "input_fields" []).1.1
       = [GetDom.LookedUp (Some page);
          GetDom.Waited page 2000 (Ok tt);
          GetDom.Snapshot page true (Ok snapshot);
          GetDom.Notified "Fetched only input fields in the DOM"].
Proof.
  apply (fields_run (GetDomFixture.host (Some 0) true) "/var/log" "input_fields" []).
  - right. reflexivity.
  - reflexivity.
Defined.
